(** * NeuroTrack: the Flask routing layer of [main.py]

    A shallow embedding of the request handlers of [main.py] and of the
    error handlers Flask runs for the exceptions they raise.  The auth
    service ([backend.auth]) and the persistence adapter
    ([backend.database]) are imported by [main.py]; the handlers are written
    over an interface with one operation per imported function, and a
    reference implementation of that interface follows the written
    specification of the two missing modules. *)

From Stdlib Require Import ZArith String Ascii Bool List Lia.
From Stdlib Require Import Floats.SpecFloat.
From stdpp Require Import base option gmap strings list fin_maps.

Set Warnings "-register-all".
Local Open Scope Z_scope.
Local Open Scope string_scope.

(* ===================================================================== *)
(** ** Python strings

    A Python [str] is a sequence of code points.  A [string] here stands
    for a [str] all of whose code points are below 256, one [ascii] per
    code point. *)

Module Py.

(** [str.isspace] for one code point below 256: TAB, LF, VT, FF, CR, the
    four separators FS GS RS US, SPACE, NEL (0x85) and NBSP (0xA0). *)
Definition is_space (c : ascii) : bool :=
  let n := N_of_ascii c in
  ((9 <=? n) && (n <=? 13) || (28 <=? n) && (n <=? 32)
   || (n =? 133) || (n =? 160))%N.

(** [str.lower] for one code point below 256: A-Z and the Latin-1 capitals
    0xC0-0xDE (0xD7, the multiplication sign, apart) move up by 32. *)
Definition lower_char (c : ascii) : ascii :=
  let n := N_of_ascii c in
  if ((65 <=? n) && (n <=? 90)
      || (192 <=? n) && (n <=? 222) && negb (n =? 215))%N
  then ascii_of_N (n + 32) else c.

Fixpoint lower (s : string) : string :=
  match s with
  | EmptyString => EmptyString
  | String c s' => String (lower_char c) (lower s')
  end.

Fixpoint lstrip (s : string) : string :=
  match s with
  | EmptyString => EmptyString
  | String c s' => if is_space c then lstrip s' else s
  end.

Fixpoint rstrip (s : string) : string :=
  match s with
  | EmptyString => EmptyString
  | String c s' =>
      match rstrip s' with
      | EmptyString => if is_space c then EmptyString else String c EmptyString
      | r => String c r
      end
  end.

(** [s.strip()] *)
Definition strip (s : string) : string := rstrip (lstrip s).

(** A string that does not start with whitespace. *)
Definition no_leading_space (s : string) : Prop :=
  match s with
  | EmptyString => True
  | String c _ => is_space c = false
  end.

End Py.

(* ===================================================================== *)
(** ** JSON values, as [request.get_json()] returns them and as [jsonify]
    takes them: [None], [bool], [int], [float], [str], [list], [dict]. *)

Inductive json : Type :=
| JNull
| JBool (b : bool)
| JInt (n : Z)
| JFloat (f : spec_float)
| JStr (s : string)
| JList (l : list json)
| JDict (d : gmap string json).

(** Python's truth value of an object ([not data] is its negation). *)
Definition truthy (v : json) : bool :=
  match v with
  | JNull => false
  | JBool b => b
  | JInt n => negb (Z.eqb n 0)
  | JFloat (S754_zero _) => false
  | JFloat _ => true
  | JStr s => negb (String.eqb s "")
  | JList l => match l with [] => false | _ => true end
  | JDict d => negb (bool_decide (d = ∅))
  end.

(* ===================================================================== *)
(** ** Exceptions *)

(** Modelled from the spec: the exception classes [main.py] imports,
    [ValidationError] and [AuthError] from backend.auth and [DatabaseError]
    from backend.database, whose declarations are not in the sources at
    hand: the three kinds of error signal, each a class of its own below
    [Exception] carrying one message.  [OtherException] is any other
    subclass of [Exception] ([AttributeError], werkzeug's [BadRequest],
    ...), by class name and message. *)
Inductive exn : Type :=
| ValidationError (msg : string)
| AuthError (msg : string)
| DatabaseError (msg : string)
| OtherException (cls msg : string).

(** [str(error)] *)
Definition str_exn (e : exn) : string :=
  match e with
  | ValidationError m | AuthError m | DatabaseError m => m
  | OtherException _ m => m
  end.

Inductive result (A : Type) : Type :=
| Ok (a : A)
| Raise (e : exn).
Arguments Ok {A} a.
Arguments Raise {A} e.

(** A computation over a state [S] that returns or raises. *)
Definition M (S A : Type) : Type := S → result A * S.

Definition ret {S A} (a : A) : M S A := λ s, (Ok a, s).
Definition raise {S A} (e : exn) : M S A := λ s, (Raise e, s).
Definition bind {S A B} (m : M S A) (k : A → M S B) : M S B :=
  λ s, match m s with
       | (Ok a, s') => k a s'
       | (Raise e, s') => (Raise e, s')
       end.
(** [try: m  except ...: h e] *)
Definition try_except {S A} (m : M S A) (h : exn → M S A) : M S A :=
  λ s, match m s with
       | (Ok a, s') => (Ok a, s')
       | (Raise e, s') => h e s'
       end.
(** A call that cannot touch the state. *)
Definition pure_call {S A} (r : result A) : M S A := λ s, (r, s).

#[global] Instance result_ret : MRet result := λ A, Ok.
#[global] Instance result_bind : MBind result :=
  λ A B k r, match r with Ok a => k a | Raise e => Raise e end.
#[global] Instance M_ret {S} : MRet (M S) := λ A, ret.
#[global] Instance M_bind {S} : MBind (M S) := λ A B k m, bind m k.

(** The class name Python prints for a value. *)
Definition type_name (v : json) : string :=
  match v with
  | JNull => "NoneType"
  | JBool _ => "bool"
  | JInt _ => "int"
  | JFloat _ => "float"
  | JStr _ => "str"
  | JList _ => "list"
  | JDict _ => "dict"
  end.

Definition AttributeError (v : json) (attr : string) : exn :=
  OtherException "AttributeError"
    ("'" ++ type_name v ++ "' object has no attribute '" ++ attr ++ "'").

(** [data.get(key, dflt)]: a lookup with a default on a [dict], an
    [AttributeError] on anything else. *)
Definition py_get (data : json) (key : string) (dflt : json) : result json :=
  match data with
  | JDict d => Ok (default dflt (d !! key))
  | _ => Raise (AttributeError data "get")
  end.

(** [v.strip()] and [v.lower()]: methods of [str] only. *)
Definition py_strip (v : json) : result string :=
  match v with
  | JStr s => Ok (Py.strip s)
  | _ => Raise (AttributeError v "strip")
  end.

(** [user is None] *)
Definition is_None (v : json) : bool :=
  match v with JNull => true | _ => false end.

(** [user.items()], for the dict comprehension of [api_get_profile]. *)
Definition py_items (v : json) : result (gmap string json) :=
  match v with
  | JDict d => Ok d
  | _ => Raise (AttributeError v "items")
  end.

(** [isinstance(v, dict)] and [isinstance(v, str)]. *)
Definition is_dict (v : json) : bool :=
  match v with JDict _ => true | _ => false end.

Definition is_str (v : json) : bool :=
  match v with JStr _ => true | _ => false end.

(* ===================================================================== *)
(** ** The server: backend state and standard output *)

(** [print(f"<prefix>{traceback.format_exc()}")]: one line of the server's
    standard output, kept as the prefix and the exception being handled. *)
Record log_line : Type := LogLine { log_prefix : string; log_exn : exn }.

Record server (W : Type) : Type := Server { store : W; stdout : list log_line }.
Arguments Server {W} store stdout.
Arguments store {W} s.
Arguments stdout {W} s.

(** What [main.py] imports from [backend.auth] and [backend.database].  Each
    operation runs on the backend's state [W] and returns a value or raises;
    a user is returned as the JSON-able object the handlers hand to
    [jsonify], [None] as [JNull]. *)
Class Backend (W : Type) : Type := {
  register_user : string → json → string → json → M W json;
  login_user : string → json → M W json;
  find_user_by_email : string → M W json;
  find_user_by_id : Z → M W json;
}.

(** A Flask view's return value [(jsonify(body), status)]. *)
Record response : Type := Response { body : json; status : Z }.

(** The part of [flask.request] the handlers read: what [get_json()]
    returns ([None] as [JNull]) or raises. *)
Record request : Type := Request { get_json : result json }.

Section Routes.
Context {W : Type} {B : Backend W}.

(** A call into the backend from a handler. *)
Definition call {A} (op : M W A) : M (server W) A :=
  λ s, let (r, w) := op (store s) in (r, Server w (stdout s)).

Definition print (prefix : string) (e : exn) : M (server W) unit :=
  λ s, (Ok tt, Server (store s) (stdout s ++ [LogLine prefix e])).

(** *** Error handlers *)

Definition error_body (slug message : string) : json :=
  JDict {[ "success" := JBool false;
           "error" := JStr slug;
           "message" := JStr message ]}.

Definition handle_validation_error (error : exn) : response :=
  Response (error_body "validation_error" (str_exn error)) 400.

Definition handle_auth_error (error : exn) : response :=
  Response (error_body "auth_error" (str_exn error)) 401.

Definition handle_database_error (error : exn) : response :=
  Response (error_body "database_error"
              "An error occurred while processing your request") 500.

Definition handle_internal_error (error : exn) : response :=
  Response (error_body "internal_error" "An unexpected error occurred") 500.

(** Flask's choice of handler for an exception that leaves a view: the
    handler registered for its class, and the handler registered for 500
    when there is none. *)
Definition handle_user_exception (e : exn) : response :=
  match e with
  | ValidationError _ => handle_validation_error e
  | AuthError _ => handle_auth_error e
  | DatabaseError _ => handle_database_error e
  | OtherException _ _ => handle_internal_error e
  end.

(** A request served to the end: the view, then the error handler for
    whatever it raised. *)
Definition full_dispatch (view : M (server W) response) : server W → response * server W :=
  λ s, match view s with
       | (Ok r, s') => (r, s')
       | (Raise e, s') => (handle_user_exception e, s')
       end.

(** *** POST /api/auth/register *)

(** The [try] block of [api_register]. *)
Definition api_register_try (req : request) : M (server W) response :=
  data ← pure_call (get_json req);
  if negb (truthy data) then raise (ValidationError "Request body is required")
  else
    email ← pure_call (v ← py_get data "email" (JStr ""); py_strip v);
    password ← pure_call (py_get data "password" (JStr ""));
    role ← pure_call (v ← py_get data "role" (JStr "");
                      r ← py_strip v;
                      Ok (Py.lower r));
    profile ← pure_call (py_get data "profile" (JDict ∅));
    user ← call (register_user email password role profile);
    ret (Response (JDict {[ "success" := JBool true;
                            "message" := JStr "Registration successful";
                            "user" := user ]}) 201).

Definition api_register (req : request) : M (server W) response :=
  try_except (api_register_try req)
    (λ e, match e with
          | ValidationError _ | AuthError _ => raise e
          | _ => print "Registration error: " e;;
                 raise (DatabaseError "Registration failed")
          end).

(** *** POST /api/auth/login *)

(** [data.get('identifier') or data.get('email', '')] on a dict. *)
Definition chosen_identifier (d : gmap string json) : json :=
  let first := default JNull (d !! "identifier") in
  if truthy first then first else default (JStr "") (d !! "email").

(** The [try] block of [api_login]. *)
Definition api_login_try (req : request) : M (server W) response :=
  data ← pure_call (get_json req);
  if negb (truthy data) then raise (ValidationError "Request body is required")
  else
    first ← pure_call (py_get data "identifier" JNull);
    identifier ← (if truthy first then ret first
                  else pure_call (py_get data "email" (JStr "")));
    identifier ← pure_call (py_strip identifier);
    password ← pure_call (py_get data "password" (JStr ""));
    user ← call (login_user identifier password);
    ret (Response (JDict {[ "success" := JBool true;
                            "message" := JStr "Login successful";
                            "user" := user ]}) 200).

Definition api_login (req : request) : M (server W) response :=
  try_except (api_login_try req)
    (λ e, match e with
          | ValidationError _ | AuthError _ => raise e
          | _ => print "Login error: " e;;
                 raise (DatabaseError "Login failed")
          end).

(** *** POST /api/auth/check-email *)

Definition api_check_email (req : request) : M (server W) response :=
  try_except
    (data ← pure_call (get_json req);
     if negb (truthy data) then raise (ValidationError "Request body is required")
     else
       email ← pure_call (v ← py_get data "email" (JStr ""); py_strip v);
       user ← call (find_user_by_email email);
       ret (Response (JDict {[ "success" := JBool true;
                               "available" := JBool (is_None user) ]}) 200))
    (λ e, print "Email check error: " e;;
          ret (Response (error_body "check_failed"
                           "Could not check email availability") 500)).

(** *** GET /api/users/profile/<int:user_id> *)

Definition api_get_profile (user_id : Z) : M (server W) response :=
  try_except
    (user ← call (find_user_by_id user_id);
     if negb (truthy user) then
       ret (Response (error_body "not_found" "User not found") 404)
     else
       items ← pure_call (py_items user);
       let response_user :=
         filter (λ kv : string * json, kv.1 ≠ "password_hash") items in
       ret (Response (JDict {[ "success" := JBool true;
                               "user" := JDict response_user ]}) 200))
    (λ e, print "Profile fetch error: " e;;
          ret (Response (error_body "fetch_failed"
                           "Could not retrieve profile") 500)).

End Routes.

(** An answer and the server's output go together: a 500 comes with one
    more printed line, any other status with none. *)
Definition logged_iff_500 {W : Type} (s : server W)
    (answer : response * server W) : Prop :=
  (status answer.1 = 500 ∧ ∃ line, stdout answer.2 = (stdout s ++ [line])%list)
  ∨ (status answer.1 ≠ 500 ∧ stdout answer.2 = stdout s).

(** The envelope of an answer: on success an object with ["success"] set
    to [true], under 200 or 201; on failure the object [error_body] builds,
    with the slug its status goes with. *)
Definition is_envelope (r : response) : Prop :=
  (In (status r) [200; 201]
   ∧ ∃ m : gmap string json, body r = JDict m ∧ m !! "success" = Some (JBool true))
  ∨ (∃ slug message, body r = error_body slug message
       ∧ In (status r, slug)
            [(400, "validation_error"); (401, "auth_error"); (404, "not_found");
             (500, "database_error"); (500, "check_failed"); (500, "fetch_failed")]).

(** The exceptions [api_register] and [api_login] let out of the view: the
    two they re-raise and the [DatabaseError] they raise themselves. *)
Definition leaves_view (wrapped : string) (e : exn) : Prop :=
  match e with
  | ValidationError _ | AuthError _ => True
  | DatabaseError m => m = wrapped
  | OtherException _ _ => False
  end.

(* ===================================================================== *)
(** ** A reference backend

    [backend/auth.py] and [backend/database.py] are not part of the
    sources at hand.  What follows implements the [Backend] interface from
    their written specification: an in-memory store with a logical clock,
    and the auth service over it.  Nothing here performs I/O, so no storage
    fault arises; how the handlers treat faults is stated against an
    arbitrary [Backend] instead. *)

Module Ref.

(** Modelled from the spec: the User of the data model (backend.database's
    record): numeric identifier, email, password hash, role, role-specific
    profile, creation timestamp and last-login timestamp.  Timestamps are
    readings of a logical clock; a user who never logged in has no
    last-login. *)
Record user : Type := User {
  user_id : Z;
  user_email : string;
  user_password_hash : string;
  user_role : string;
  user_profile : json;
  user_created_at : Z;
  user_last_login : option Z;
}.

(** Modelled from the spec: the store held by the persistence adapter, with
    the clock that answers "now". *)
Record world : Type := World { users : list user; clock : Z }.

(** Modelled from the spec: the store before any registration. *)
Definition init_world : world := World [] 0.

(** Modelled from the spec: what the spec leaves to the implementer of
    backend.auth: the test for a syntactically plausible email, the minimum
    password length N, the fit of a profile to a role, and the salted
    one-way hash with its verification. *)
Record policy : Type := Policy {
  email_plausible : string → bool;
  min_password_length : nat;
  profile_fits : string → gmap string json → bool;
  hash_password : string → string;
  verify_password : string → string → bool;
}.

(** Modelled from the spec: the user as a dict, the shape [main.py] relies
    on in [api_get_profile] ([user.items()], the key ['password_hash']) and
    documents in the handlers' docstrings. *)
Definition user_dict (u : user) : gmap string json :=
  {[ "id" := JInt (user_id u);
     "email" := JStr (user_email u);
     "password_hash" := JStr (user_password_hash u);
     "role" := JStr (user_role u);
     "profile" := user_profile u;
     "created_at" := JInt (user_created_at u);
     "last_login" := match user_last_login u with
                     | Some t => JInt t
                     | None => JNull
                     end ]}.

(** Modelled from the spec: "the user record with password hash stripped". *)
Definition public_user (u : user) : gmap string json :=
  delete "password_hash" (user_dict u).

(** Modelled from the spec: emails compare case-insensitively. *)
Definition same_email (a b : string) : bool :=
  String.eqb (Py.lower a) (Py.lower b).

(** Modelled from the spec: backend.database's unique-email lookup. *)
Definition db_find_user_by_email (email : string) (w : world) : option user :=
  List.find (λ u, same_email (user_email u) email) (users w).

(** Modelled from the spec: backend.database's id lookup. *)
Definition db_find_user_by_id (id : Z) (w : world) : option user :=
  List.find (λ u, Z.eqb (user_id u) id) (users w).

(** Modelled from the spec: "now", the current time: what the store's
    clock shows when it is read. *)
Definition now : M world Z :=
  λ w, (Ok (clock w), w).

(** Modelled from the spec: the record a registration creates: the store
    assigns the next identifier, the creation timestamp is the current
    time, and there is no last-login yet. *)
Definition new_user (w : world) (email hash role : string) (profile : json)
  : user :=
  User (Z.of_nat (length (users w)) + 1) email hash role profile (clock w) None.

(** Modelled from the spec: backend.database's atomic create-if-absent
    insert.  [None] when the email is taken. *)
Definition db_create_user (email hash role : string) (profile : json)
  : M world (option user) :=
  λ w, match db_find_user_by_email email w with
       | Some _ => (Ok None, w)
       | None =>
           let u := new_user w email hash role profile in
           (Ok (Some u), World (users w ++ [u]) (clock w + 1))
       end.

(** Modelled from the spec: "the last-login field is the only
    post-creation mutation point". *)
Definition set_last_login (t : Z) (u : user) : user :=
  User (user_id u) (user_email u) (user_password_hash u) (user_role u)
       (user_profile u) (user_created_at u) (Some t).

(** Modelled from the spec: backend.database's update path for
    last-login. *)
Definition db_update_last_login (id t : Z) : M world unit :=
  λ w, (Ok tt,
        World (map (λ u, if Z.eqb (user_id u) id then set_last_login t u else u)
                   (users w))
              (clock w)).

(** Modelled from the spec: a lookup's answer as the handlers see it,
    [User|None]. *)
Definition found (o : option user) : json :=
  match o with
  | Some u => JDict (user_dict u)
  | None => JNull
  end.

Section Auth.
Variable P : policy.

(** Modelled from the spec: the closed set of roles. *)
Definition valid_role (role : string) : bool :=
  String.eqb role "patient" || String.eqb role "doctor"
  || String.eqb role "physio".

(** Modelled from the spec: the input constraints of backend.auth's
    register, in the order the spec lists them; the first one violated
    gives the ValidationKind failure. *)
Definition validate_registration (email : string) (password : json)
    (role : string) (profile : json) : result (string * gmap string json) :=
  if String.eqb email "" || negb (email_plausible P email)
  then Raise (ValidationError "Invalid email address")
  else match password with
       | JStr pw =>
           if (String.length pw <? min_password_length P)%nat
           then Raise (ValidationError "Password is too short")
           else if negb (valid_role role)
           then Raise (ValidationError "Invalid role")
           else match profile with
                | JDict pr =>
                    if profile_fits P role pr then Ok (pw, pr)
                    else Raise (ValidationError "Invalid profile")
                | _ => Raise (ValidationError "Invalid profile")
                end
       | _ => Raise (ValidationError "Password is too short")
       end.

(** Modelled from the spec: backend.auth's register once email and role are
    normalized: constraints first (ValidationKind), then the taken email
    (AuthKind), otherwise hash, insert, and the created user without its
    password hash. *)
Definition register_normalized (email : string) (password : json)
    (role : string) (profile : json) : M world json :=
  '(pw, _) ← pure_call (validate_registration email password role profile);
  created ← db_create_user email (hash_password P pw) role profile;
  match created with
  | None => raise (AuthError "Email already registered")
  | Some u => mret (JDict (public_user u))
  end.

(** Modelled from the spec: backend.auth's register: "normalizes email
    (trim, lowercase) and role (trim, lowercase)", then the rest. *)
Definition auth_register_user (email : string) (password : json)
    (role : string) (profile : json) : M world json :=
  let email := Py.lower (Py.strip email) in
  let role := Py.lower (Py.strip role) in
  register_normalized email password role profile.

(** Modelled from the spec: "the password hash verifies against the
    supplied password"; only a string can verify. *)
Definition password_verifies (password : json) (u : user) : bool :=
  match password with
  | JStr pw => verify_password P pw (user_password_hash u)
  | _ => false
  end.

(** Modelled from the spec: backend.auth's login: ValidationKind for an
    empty identifier or password; AuthKind, with one message, for no match
    or a hash that does not verify; on success the last-login timestamp is
    set to now and the user is returned without its password hash.  The
    identifier is looked up as an email. *)
Definition auth_login_user (identifier : string) (password : json)
  : M world json :=
  if String.eqb identifier "" || negb (truthy password)
  then raise (ValidationError "Identifier and password are required")
  else
    λ w, match db_find_user_by_email identifier w with
         | None => (Raise (AuthError "Invalid credentials"), w)
         | Some u =>
             if password_verifies password u then
               (t ← now;
                db_update_last_login (user_id u) t;;
                mret (JDict (public_user (set_last_login t u)))) w
             else (Raise (AuthError "Invalid credentials"), w)
         end.

#[export] Instance backend : Backend world := {
  register_user := auth_register_user;
  login_user := auth_login_user;
  find_user_by_email := λ email w, (Ok (found (db_find_user_by_email email w)), w);
  find_user_by_id := λ id w, (Ok (found (db_find_user_by_id id w)), w);
}.

End Auth.

(** An address is registered when a stored email equals it, trimmed, up to
    case. *)
Definition registered (e : string) (w : world) : Prop :=
  ∃ u, u ∈ users w ∧ Py.lower (user_email u) = Py.lower (Py.strip e).

(** The calls a client can make on the API. *)
Inductive api_call : Type :=
| PostRegister (req : request)
| PostLogin (req : request)
| PostCheckEmail (req : request)
| GetProfile (user_id : Z).

Definition serve (P : policy) (c : api_call)
  : server world → response * server world :=
  full_dispatch
    match c with
    | PostRegister req => api_register (B := backend P) req
    | PostLogin req => api_login (B := backend P) req
    | PostCheckEmail req => api_check_email (B := backend P) req
    | GetProfile id => api_get_profile (B := backend P) id
    end.

(** The server after a run of calls, one after the other. *)
Fixpoint serve_all (P : policy) (cs : list api_call) (s : server world)
  : server world :=
  match cs with
  | [] => s
  | c :: cs' => serve_all P cs' (serve P c s).2
  end.

(** A policy to run the handlers on: an email needs an [@], a password 8
    characters, any profile fits; the stand-in hash prefixes the password. *)
Definition sample_policy : policy :=
  Policy (λ e, bool_decide (is_Some (String.index 0 "@" e))) 8 (λ _ _, true)
         (λ pw, "pbkdf2$" ++ pw)
         (λ pw h, String.eqb ("pbkdf2$" ++ pw) h).

Definition sample_registration : gmap string json :=
  {[ "email" := JStr "a@x.com"; "password" := JStr "Secret123";
     "role" := JStr "patient"; "profile" := JDict ∅ ]}.

Definition fresh_server : server world := Server init_world [].

(** The server once [sample_registration] has been served. *)
Definition server_with_a : server world :=
  (serve sample_policy (PostRegister (Request (Ok (JDict sample_registration))))
         fresh_server).2.

Definition sample_login : gmap string json :=
  {[ "identifier" := JStr "a@x.com"; "password" := JStr "Secret123" ]}.




End Ref.

(** What a backend was called with. *)
Inductive backend_call : Type :=
| RegisterCall (email : string) (password : json) (role : string) (profile : json)
| LoginCall (identifier : string) (password : json)
| FindByEmail (email : string)
| FindById (id : Z).

(** A backend that does nothing but keep the list of the calls it got. *)
Definition recording_backend : Backend (list backend_call) := {|
  register_user := λ email password role profile w,
    (Ok (JStr "recorded"), (w ++ [RegisterCall email password role profile])%list);
  login_user := λ identifier password w,
    (Ok (JStr "recorded"), (w ++ [LoginCall identifier password])%list);
  find_user_by_email := λ email w, (Ok JNull, (w ++ [FindByEmail email])%list);
  find_user_by_id := λ id w, (Ok JNull, (w ++ [FindById id])%list);
|}.

(** A backend that returns what the handlers do not expect: lookups by id
    answer with an empty dict for id 0 and with a list otherwise. *)
Definition careless_backend : Backend unit := {|
  register_user := λ _ _ _ _, mret (JStr "created");
  login_user := λ _ _, mret (JStr "welcome");
  find_user_by_email := λ _, mret (JDict ∅);
  find_user_by_id := λ id, mret (if Z.eqb id 0 then JDict ∅ else JList [JInt id]);
|}.

(** A backend whose storage is out of reach: every operation raises the
    storage fault. *)
Definition unreachable_backend : Backend unit := {|
  register_user := λ _ _ _ _, raise (DatabaseError "database is locked");
  login_user := λ _ _, raise (DatabaseError "database is locked");
  find_user_by_email := λ _, raise (DatabaseError "database is locked");
  find_user_by_id := λ _, raise (DatabaseError "database is locked");
|}.

(* ===================================================================== *)
(** * Properties *)

(** ** [strip] and [lower] *)

Lemma is_space_lower_char c : Py.is_space (Py.lower_char c) = Py.is_space c.
Proof. by destruct c as [[] [] [] [] [] [] [] []]. Qed.

Lemma lower_char_idem c : Py.lower_char (Py.lower_char c) = Py.lower_char c.
Proof. by destruct c as [[] [] [] [] [] [] [] []]. Qed.

Lemma lower_idem s : Py.lower (Py.lower s) = Py.lower s.
Proof.
  induction s as [|c s IH]; simpl; [done|].
  by rewrite lower_char_idem, IH.
Qed.

Lemma lstrip_lower s : Py.lstrip (Py.lower s) = Py.lower (Py.lstrip s).
Proof.
  induction s as [|c s IH]; simpl; [done|].
  rewrite is_space_lower_char. by destruct (Py.is_space c).
Qed.

Lemma rstrip_lower s : Py.rstrip (Py.lower s) = Py.lower (Py.rstrip s).
Proof.
  induction s as [|c s IH]; simpl; [done|].
  rewrite IH, is_space_lower_char.
  destruct (Py.rstrip s); simpl; [by destruct (Py.is_space c)|done].
Qed.

Lemma strip_lower s : Py.strip (Py.lower s) = Py.lower (Py.strip s).
Proof. unfold Py.strip. by rewrite lstrip_lower, rstrip_lower. Qed.

Lemma lstrip_no_leading_space s : Py.no_leading_space (Py.lstrip s).
Proof.
  induction s as [|c s IH]; simpl; [done|].
  destruct (Py.is_space c) eqn:E; [done|]. by simpl.
Qed.

Lemma lstrip_id s : Py.no_leading_space s → Py.lstrip s = s.
Proof. destruct s as [|c s]; simpl; [done|]. by intros ->. Qed.

Lemma rstrip_no_leading_space s :
  Py.no_leading_space s → Py.no_leading_space (Py.rstrip s).
Proof.
  destruct s as [|c s]; simpl; [done|]. intros Hc.
  destruct (Py.rstrip s); simpl; [by rewrite Hc|done].
Qed.

Lemma rstrip_idem s : Py.rstrip (Py.rstrip s) = Py.rstrip s.
Proof.
  induction s as [|c s IH]; simpl; [done|].
  destruct (Py.rstrip s) as [|c' r] eqn:E.
  - destruct (Py.is_space c) eqn:Ec; simpl; [done|]. by rewrite Ec.
  - remember (String c' r) as t. simpl. rewrite IH. by subst t.
Qed.

Lemma strip_idem s : Py.strip (Py.strip s) = Py.strip s.
Proof.
  unfold Py.strip.
  rewrite (lstrip_id (Py.rstrip _)), rstrip_idem; [done|].
  apply rstrip_no_leading_space, lstrip_no_leading_space.
Qed.

(** ** The handlers, over any backend *)

Section RouteFacts.
Context {W : Type} {B : Backend W}.
Implicit Types (s : server W) (d : gmap string json) (req : request).

Lemma truthy_dict d : truthy (JDict d) = negb (bool_decide (d = ∅)).
Proof. done. Qed.

(** Running a handler: unfold the monad down to its state function. *)
Ltac run :=
  unfold mbind, mret, M_bind, M_ret, result_bind, result_ret,
    bind, ret, raise, try_except, pure_call, call, print in *; simpl in *.

(** Whatever the [try] block of [api_check_email] raises, the answer is
    the 500 envelope: no exception leaves the view. *)
Lemma api_check_email_never_raises req s :
  ∃ r s', api_check_email req s = (Ok r, s').
Proof.
  unfold api_check_email. run.
  destruct (get_json req) as [data|e]; simpl; [|by eauto].
  destruct (truthy data); simpl; [|by eauto].
  destruct (py_get data "email" (JStr "")) as [v|e]; simpl; [|by eauto].
  destruct (py_strip v) as [email|e]; simpl; [|by eauto].
  destruct (find_user_by_email email (store s)) as [[user|e] w]; simpl; by eauto.
Qed.

Lemma filter_ne_delete (k : string) d :
  filter (λ kv : string * json, kv.1 ≠ k) d = delete k d.
Proof.
  apply map_eq; intros i. destruct (decide (i = k)) as [->|Hne].
  - rewrite lookup_delete_eq. apply map_lookup_filter_None. right.
    intros x _ Hx. by apply Hx.
  - rewrite lookup_delete_ne by done.
    destruct (d !! i) as [x|] eqn:E.
    + by apply map_lookup_filter_Some.
    + apply map_lookup_filter_None. by left.
Qed.

(** C1, at the request with no body ([get_json()] is [None]) and at a
    request whose body is not JSON ([get_json()] raises): the
    [ValidationError] that [api_check_email] raises for the first is caught
    by the handler's own [except Exception], like any other exception, so
    the client gets 500 with slug [check_failed]; the message "Request body
    is required" only reaches the server's output, and the 400 mapping is
    never applied. *)
Theorem check_email_without_body_is_500 s :
  full_dispatch (api_check_email (Request (Ok JNull))) s =
    (Response (error_body "check_failed" "Could not check email availability") 500,
     Server (store s)
       (stdout s ++ [LogLine "Email check error: "
                       (ValidationError "Request body is required")]))
  ∧ ∀ e, full_dispatch (api_check_email (Request (Raise e))) s =
      (Response (error_body "check_failed" "Could not check email availability") 500,
       Server (store s) (stdout s ++ [LogLine "Email check error: " e])).
Proof. done. Qed.

(** C2: whatever the [try] block of [api_register] or [api_login] raises,
    the client gets: for a [ValidationError], 400 with slug
    [validation_error] and its message; for an [AuthError], 401 with slug
    [auth_error] and its message; for a [DatabaseError] or any other
    exception, 500 with slug [database_error] and one fixed message,
    whatever the exception was: the handler prints it to the server's
    output and raises a [DatabaseError] of its own in its place. *)
Theorem register_login_error_mapping req s :
  (∀ e s1, api_register_try req s = (Raise e, s1) →
     match e with
     | ValidationError m =>
         full_dispatch (api_register req) s =
           (Response (error_body "validation_error" m) 400, s1)
     | AuthError m =>
         full_dispatch (api_register req) s =
           (Response (error_body "auth_error" m) 401, s1)
     | DatabaseError _ | OtherException _ _ =>
         let logged :=
           Server (store s1) (stdout s1 ++ [LogLine "Registration error: " e]) in
         api_register req s = (Raise (DatabaseError "Registration failed"), logged)
         ∧ full_dispatch (api_register req) s =
             (Response (error_body "database_error"
                          "An error occurred while processing your request") 500,
              logged)
     end)
  ∧ (∀ e s1, api_login_try req s = (Raise e, s1) →
     match e with
     | ValidationError m =>
         full_dispatch (api_login req) s =
           (Response (error_body "validation_error" m) 400, s1)
     | AuthError m =>
         full_dispatch (api_login req) s =
           (Response (error_body "auth_error" m) 401, s1)
     | DatabaseError _ | OtherException _ _ =>
         let logged :=
           Server (store s1) (stdout s1 ++ [LogLine "Login error: " e]) in
         api_login req s = (Raise (DatabaseError "Login failed"), logged)
         ∧ full_dispatch (api_login req) s =
             (Response (error_body "database_error"
                          "An error occurred while processing your request") 500,
              logged)
     end).
Proof.
  split; intros e s1 Htry;
    unfold full_dispatch, api_register, api_login, try_except;
    rewrite Htry; by destruct e.
Qed.

(** C7: [api_get_profile] answers 404 with slug [not_found] when the lookup
    returns [None], 200 with the looked-up record minus its [password_hash]
    key when the lookup returns a (non-empty) user record, and 500 when the
    lookup raises. *)
Theorem get_profile_responses (id : Z) s :
  (∀ w, find_user_by_id id (store s) = (Ok JNull, w) →
     full_dispatch (api_get_profile id) s =
       (Response (error_body "not_found" "User not found") 404,
        Server w (stdout s)))
  ∧ (∀ d w, d ≠ ∅ → find_user_by_id id (store s) = (Ok (JDict d), w) →
     full_dispatch (api_get_profile id) s =
       (Response (JDict {[ "success" := JBool true;
                           "user" := JDict (delete "password_hash" d) ]}) 200,
        Server w (stdout s)))
  ∧ (∀ e w, find_user_by_id id (store s) = (Raise e, w) →
     full_dispatch (api_get_profile id) s =
       (Response (error_body "fetch_failed" "Could not retrieve profile") 500,
        Server w (stdout s ++ [LogLine "Profile fetch error: " e]))).
Proof.
  repeat split.
  - intros w Hfind. unfold full_dispatch, api_get_profile. run. by rewrite Hfind.
  - intros d w Hd Hfind. unfold full_dispatch, api_get_profile. run.
    rewrite Hfind; simpl. rewrite bool_decide_eq_false_2 by done. simpl.
    by rewrite filter_ne_delete.
  - intros e w Hfind. unfold full_dispatch, api_get_profile. run. by rewrite Hfind.
Qed.

(** A lookup that returns something that is neither [None] nor a dict is an
    internal fault as well. *)
Lemma get_profile_not_a_dict (id : Z) s v w :
  truthy v = true → (∀ d, v ≠ JDict d) →
  find_user_by_id id (store s) = (Ok v, w) →
  full_dispatch (api_get_profile id) s =
    (Response (error_body "fetch_failed" "Could not retrieve profile") 500,
     Server w (stdout s ++ [LogLine "Profile fetch error: " (AttributeError v "items")])).
Proof.
  intros Hv Hnd Hfind. unfold full_dispatch, api_get_profile. run.
  rewrite Hfind; simpl. rewrite Hv; simpl.
  destruct v; try done. by destruct (Hnd d).
Qed.

(** C9: when the body has no ["identifier"] key, or a falsy value under it,
    [api_login] takes the value under ["email"] (the empty string when the
    key is absent) as the identifier, and calls [login_user] with that
    value stripped.  The call is reached when the body is a non-empty
    object and the value is a string; an empty object is refused before,
    and a value that is not a string has no [strip]. *)
Theorem login_falls_back_to_email d s :
  (d !! "identifier" = None
   ∨ ∃ v, d !! "identifier" = Some v ∧ truthy v = false) →
  api_login_try (Request (Ok (JDict d))) s =
    if bool_decide (d = ∅)
    then (Raise (ValidationError "Request body is required"), s)
    else match default (JStr "") (d !! "email") with
         | JStr e =>
             (user ← call (login_user (Py.strip e)
                                      (default (JStr "") (d !! "password")));
              mret (Response (JDict {[ "success" := JBool true;
                                       "message" := JStr "Login successful";
                                       "user" := user ]}) 200)) s
         | v => (Raise (AttributeError v "strip"), s)
         end.
Proof.
  intros Hid.
  assert (truthy (default JNull (d !! "identifier")) = false) as Hfalsy.
  { destruct Hid as [->|(v & -> & Hv)]; done. }
  unfold api_login_try. run.
  destruct (bool_decide (d = ∅)); simpl; [done|].
  rewrite Hfalsy; simpl.
  by destruct (default (JStr "") (d !! "email")).
Qed.

(** C10, amended: for a body that is a non-empty JSON object,
    [api_check_email] validates nothing: when the value under ["email"]
    (the empty string when absent) is a string and the lookup of that
    string, stripped, returns, the answer is 200 with [available] telling
    whether the lookup returned [None]; when the value is not a string, or
    the lookup raises, the answer is 500 with slug [check_failed]; the
    answer is never 400. *)
Theorem check_email_on_object d s :
  d ≠ ∅ →
  status (full_dispatch (api_check_email (Request (Ok (JDict d)))) s).1 ≠ 400
  ∧ full_dispatch (api_check_email (Request (Ok (JDict d)))) s =
      match default (JStr "") (d !! "email") with
      | JStr e =>
          match find_user_by_email (Py.strip e) (store s) with
          | (Ok user, w) =>
              (Response (JDict {[ "success" := JBool true;
                                  "available" := JBool (is_None user) ]}) 200,
               Server w (stdout s))
          | (Raise ex, w) =>
              (Response (error_body "check_failed"
                           "Could not check email availability") 500,
               Server w (stdout s ++ [LogLine "Email check error: " ex]))
          end
      | v =>
          (Response (error_body "check_failed"
                       "Could not check email availability") 500,
           Server (store s)
             (stdout s ++ [LogLine "Email check error: " (AttributeError v "strip")]))
      end.
Proof.
  intros Hd. unfold full_dispatch, api_check_email. run.
  rewrite bool_decide_eq_false_2 by done; simpl.
  destruct (default (JStr "") (d !! "email")); simpl; try done.
  by destruct (find_user_by_email (Py.strip _) (store s)) as [[user|ex] w].
Qed.

End RouteFacts.

(** What [api_register] hands to [register_user]: the email stripped, the
    role stripped and lowercased, password and profile as they came. *)
Lemma api_register_try_object {W : Type} {B : Backend W}
    (d : gmap string json) (s : server W) (e r : string) :
  d ≠ ∅ →
  default (JStr "") (d !! "email") = JStr e →
  default (JStr "") (d !! "role") = JStr r →
  api_register_try (Request (Ok (JDict d))) s =
    (user ← call (register_user (Py.strip e)
                    (default (JStr "") (d !! "password"))
                    (Py.lower (Py.strip r))
                    (default (JDict ∅) (d !! "profile")));
     mret (Response (JDict {[ "success" := JBool true;
                              "message" := JStr "Registration successful";
                              "user" := user ]}) 201)) s.
Proof.
  intros Hd He Hr. unfold api_register_try.
  unfold mbind, M_bind, bind, pure_call; simpl.
  rewrite bool_decide_eq_false_2 by done; simpl.
  by rewrite He, Hr.
Qed.

(** What [api_login] hands to [login_user]: the chosen identifier,
    stripped, and the password as it came. *)
Lemma api_login_try_object {W : Type} {B : Backend W}
    (d : gmap string json) (s : server W) (i : string) :
  d ≠ ∅ →
  chosen_identifier d = JStr i →
  api_login_try (Request (Ok (JDict d))) s =
    (user ← call (login_user (Py.strip i) (default (JStr "") (d !! "password")));
     mret (Response (JDict {[ "success" := JBool true;
                              "message" := JStr "Login successful";
                              "user" := user ]}) 200)) s.
Proof.
  intros Hd Hi. unfold api_login_try, chosen_identifier in *.
  unfold mbind, M_bind, bind, pure_call; simpl.
  rewrite bool_decide_eq_false_2 by done; simpl.
  destruct (truthy (default JNull (d !! "identifier"))); simpl; by rewrite Hi.
Qed.

(** A registration that does not get as far as [register_user] changes
    nothing in the store and is not answered 201. *)
Lemma api_register_reaches_backend {W : Type} {B : Backend W}
    (req : request) (s : server W) :
  (∃ d e r, req = Request (Ok (JDict d)) ∧ d ≠ ∅
            ∧ default (JStr "") (d !! "email") = JStr e
            ∧ default (JStr "") (d !! "role") = JStr r)
  ∨ (store (full_dispatch (api_register req) s).2 = store s
     ∧ status (full_dispatch (api_register req) s).1 ≠ 201).
Proof.
  destruct req as [[data|ex]]; [|right; by destruct ex].
  assert (∀ x : Z, x = 400 ∨ x = 500 → x ≠ 201) as Hst by lia.
  destruct data as [|[]|n|[]|x|[]|d].
  1-11: right; unfold full_dispatch, api_register, api_register_try, try_except,
         mbind, M_bind, bind, pure_call, raise; simpl;
       try destruct (Z.eqb n 0); try destruct (String.eqb x ""); simpl;
       (split; [done|apply Hst; auto]).
  destruct (decide (d = ∅)) as [->|Hd]; [right; split; [done|apply Hst; auto]|].
  destruct (default (JStr "") (d !! "email")) as [| | | |e| |] eqn:He;
  destruct (default (JStr "") (d !! "role")) as [| | | |r| |] eqn:Hr;
    try (left; by eauto 10);
    right; unfold full_dispatch, api_register, api_register_try, try_except,
      mbind, M_bind, bind, pure_call, raise; simpl;
    rewrite bool_decide_eq_false_2 by done; simpl; rewrite ?He, ?Hr; simpl;
    (split; [done|apply Hst; auto]).
Qed.

(** A login that does not get as far as [login_user] changes nothing in
    the store. *)
Lemma api_login_reaches_backend {W : Type} {B : Backend W}
    (req : request) (s : server W) :
  (∃ d i, req = Request (Ok (JDict d)) ∧ d ≠ ∅ ∧ chosen_identifier d = JStr i)
  ∨ store (full_dispatch (api_login req) s).2 = store s.
Proof.
  destruct req as [[data|ex]]; [|right; by destruct ex].
  destruct data as [|[]|n|[]|x|[]|d].
  1-11: right; unfold full_dispatch, api_login, api_login_try, try_except,
         mbind, M_bind, bind, pure_call, raise; simpl;
       try destruct (Z.eqb n 0); try destruct (String.eqb x ""); by simpl.
  destruct (decide (d = ∅)) as [->|Hd]; [by right|].
  destruct (chosen_identifier d) as [| | | |i| |] eqn:Hi;
    try (left; by eauto 10);
    right; unfold chosen_identifier in Hi;
    unfold full_dispatch, api_login, api_login_try, try_except,
      mbind, mret, M_ret, M_bind, bind, ret, pure_call, raise; simpl;
    rewrite bool_decide_eq_false_2 by done; simpl;
    destruct (truthy (default JNull (d !! "identifier"))); simpl; by rewrite Hi.
Qed.

(** ** The reference backend *)

Section RefFacts.
Variable P : Ref.policy.
Implicit Types (s : server Ref.world) (w : Ref.world) (u : Ref.user)
  (d : gmap string json).

Lemma find_email_lower x w :
  Ref.db_find_user_by_email (Py.lower x) w = Ref.db_find_user_by_email x w.
Proof.
  unfold Ref.db_find_user_by_email, Ref.same_email.
  by rewrite lower_idem.
Qed.

Lemma find_email_Some x w u :
  Ref.db_find_user_by_email x w = Some u →
  u ∈ Ref.users w ∧ Py.lower (Ref.user_email u) = Py.lower x.
Proof.
  unfold Ref.db_find_user_by_email. intros Hf.
  apply find_some in Hf as [Hin Heq]. split.
  - by apply list_elem_of_In.
  - by apply String.eqb_eq.
Qed.

Lemma find_email_None x w :
  Ref.db_find_user_by_email x w = None →
  ∀ u, u ∈ Ref.users w → Py.lower (Ref.user_email u) ≠ Py.lower x.
Proof.
  unfold Ref.db_find_user_by_email. intros Hf u Hin Heq.
  apply list_elem_of_In in Hin.
  pose proof (find_none _ _ Hf u Hin) as Hne. simpl in Hne.
  unfold Ref.same_email in Hne. apply String.eqb_neq in Hne. done.
Qed.

Lemma registered_find e w :
  Ref.registered e w ↔ is_Some (Ref.db_find_user_by_email (Py.strip e) w).
Proof.
  split.
  - intros (u & Hin & Heq).
    destruct (Ref.db_find_user_by_email (Py.strip e) w) eqn:Hf; [done|].
    by destruct (find_email_None _ _ Hf u Hin).
  - intros [u Hf]. exists u. by apply find_email_Some.
Qed.

Lemma unregistered_find e w :
  ¬ Ref.registered e w ↔ Ref.db_find_user_by_email (Py.strip e) w = None.
Proof.
  rewrite registered_find. split.
  - intros Hn. destruct (Ref.db_find_user_by_email _ w) eqn:E; [|done].
    destruct Hn; eauto.
  - intros -> [? ?]. done.
Qed.

Lemma public_user_fields u :
  Ref.public_user u =
    {[ "id" := JInt (Ref.user_id u);
       "email" := JStr (Ref.user_email u);
       "role" := JStr (Ref.user_role u);
       "profile" := Ref.user_profile u;
       "created_at" := JInt (Ref.user_created_at u);
       "last_login" := match Ref.user_last_login u with
                       | Some t => JInt t
                       | None => JNull
                       end ]}.
Proof.
  unfold Ref.public_user, Ref.user_dict.
  rewrite !(delete_insert_ne _ "password_hash") by done.
  rewrite delete_insert_eq.
  by rewrite !delete_insert_ne, delete_singleton_ne by done.
Qed.

(** On the reference backend, [api_register] runs the validation and the
    insert on the trimmed, lowercased email and role. *)
Lemma ref_register_try_normalized d s e r :
  d ≠ ∅ →
  default (JStr "") (d !! "email") = JStr e →
  default (JStr "") (d !! "role") = JStr r →
  api_register_try (B := Ref.backend P) (Request (Ok (JDict d))) s =
    (user ← call (Ref.register_normalized P
                    (Py.lower (Py.strip e))
                    (default (JStr "") (d !! "password"))
                    (Py.lower (Py.strip r))
                    (default (JDict ∅) (d !! "profile")));
     mret (Response (JDict {[ "success" := JBool true;
                              "message" := JStr "Registration successful";
                              "user" := user ]}) 201)) s.
Proof.
  intros Hd He Hr. rewrite (api_register_try_object d s e r) by done.
  simpl. unfold Ref.auth_register_user.
  by rewrite strip_idem, strip_lower, strip_idem, lower_idem.
Qed.

Lemma validate_raises_validation email password role profile ex :
  Ref.validate_registration P email password role profile = Raise ex →
  ∃ m, ex = ValidationError m.
Proof.
  unfold Ref.validate_registration. intros Hv.
  repeat (match type of Hv with
          | context [if ?b then _ else _] => destruct b
          | context [match ?x with _ => _ end] => destruct x
          end; try discriminate; try (injection Hv as <-; eauto)).
Qed.

(** Every way a registration with a string email and role can end on the
    reference backend. *)
Lemma ref_register_outcome d s e r :
  d ≠ ∅ →
  default (JStr "") (d !! "email") = JStr e →
  default (JStr "") (d !! "role") = JStr r →
  let email := Py.lower (Py.strip e) in
  let role := Py.lower (Py.strip r) in
  let profile := default (JDict ∅) (d !! "profile") in
  full_dispatch (api_register (B := Ref.backend P) (Request (Ok (JDict d)))) s =
    match Ref.validate_registration P email
            (default (JStr "") (d !! "password")) role profile with
    | Raise ex => (Response (error_body "validation_error" (str_exn ex)) 400, s)
    | Ok (pw, _) =>
        match Ref.db_find_user_by_email (Py.strip e) (store s) with
        | Some _ =>
            (Response (error_body "auth_error" "Email already registered") 401, s)
        | None =>
            let u := Ref.new_user (store s) email (Ref.hash_password P pw) role profile in
            (Response (JDict {[ "success" := JBool true;
                                "message" := JStr "Registration successful";
                                "user" := JDict (Ref.public_user u) ]}) 201,
             Server (Ref.World (Ref.users (store s) ++ [u]) (Ref.clock (store s) + 1))
                    (stdout s))
        end
    end.
Proof.
  intros Hd He Hr email role profile.
  unfold full_dispatch, api_register, try_except.
  rewrite (ref_register_try_normalized d s e r) by done.
  fold email role profile.
  unfold Ref.register_normalized, mbind, M_bind, bind, pure_call, call.
  destruct (Ref.validate_registration P email _ role profile)
    as [[pw pr]|ex] eqn:Hv.
  - unfold Ref.db_create_user. unfold email at 1. rewrite find_email_lower.
    destruct s as [w out]; simpl.
    by destruct (Ref.db_find_user_by_email (Py.strip e) w).
  - apply validate_raises_validation in Hv as [m ->]. by destruct s.
Qed.

(** C3: a registration that passes validation, for an address that is not
    registered, is answered 201; the user object of the answer has the keys
    id, email, role, profile, created_at and last_login and no other, with
    values that come from the store and from the request's email, role and
    profile: neither the password nor its hash is among them. *)
Theorem register_fresh_email_succeeds d s e r pw pr :
  d !! "email" = Some (JStr e) →
  d !! "role" = Some (JStr r) →
  Ref.validate_registration P (Py.lower (Py.strip e))
    (default (JStr "") (d !! "password")) (Py.lower (Py.strip r))
    (default (JDict ∅) (d !! "profile")) = Ok (pw, pr) →
  ¬ Ref.registered e (store s) →
  let u := Ref.new_user (store s) (Py.lower (Py.strip e)) (Ref.hash_password P pw)
             (Py.lower (Py.strip r)) (default (JDict ∅) (d !! "profile")) in
  let user : gmap string json :=
    {[ "id" := JInt (Z.of_nat (length (Ref.users (store s))) + 1);
       "email" := JStr (Py.lower (Py.strip e));
       "role" := JStr (Py.lower (Py.strip r));
       "profile" := default (JDict ∅) (d !! "profile");
       "created_at" := JInt (Ref.clock (store s));
       "last_login" := JNull ]} in
  full_dispatch (api_register (B := Ref.backend P) (Request (Ok (JDict d)))) s =
    (Response (JDict {[ "success" := JBool true;
                        "message" := JStr "Registration successful";
                        "user" := JDict user ]}) 201,
     Server (Ref.World (Ref.users (store s) ++ [u]) (Ref.clock (store s) + 1))
            (stdout s))
  ∧ dom user = {[ "id"; "email"; "role"; "profile"; "created_at"; "last_login" ]}
  ∧ user !! "password" = None ∧ user !! "password_hash" = None.
Proof.
  intros He Hr Hv Hfresh u user. split; [|split; [|done]].
  - rewrite (ref_register_outcome d s e r);
      [|by intros ->|by rewrite He|by rewrite Hr].
    rewrite Hv. apply unregistered_find in Hfresh as ->.
    cbv zeta. by rewrite public_user_fields.
  - subst user. rewrite !dom_insert_L, dom_singleton_L. set_solver.
Qed.

(** Every way a login with a string identifier can end on the reference
    backend. *)
Lemma ref_login_outcome d s i :
  d ≠ ∅ →
  chosen_identifier d = JStr i →
  let password := default (JStr "") (d !! "password") in
  full_dispatch (api_login (B := Ref.backend P) (Request (Ok (JDict d)))) s =
    if String.eqb (Py.strip i) "" || negb (truthy password)
    then (Response (error_body "validation_error"
                      "Identifier and password are required") 400, s)
    else
      match Ref.db_find_user_by_email (Py.strip i) (store s) with
      | None => (Response (error_body "auth_error" "Invalid credentials") 401, s)
      | Some u =>
          if Ref.password_verifies P password u then
            let t := Ref.clock (store s) in
            (Response (JDict {[ "success" := JBool true;
                                "message" := JStr "Login successful";
                                "user" := JDict (Ref.public_user
                                                   (Ref.set_last_login t u)) ]}) 200,
             Server (Ref.World
                       (map (λ u', if Z.eqb (Ref.user_id u') (Ref.user_id u)
                                   then Ref.set_last_login t u' else u')
                            (Ref.users (store s)))
                       (Ref.clock (store s)))
                    (stdout s))
          else (Response (error_body "auth_error" "Invalid credentials") 401, s)
      end.
Proof.
  intros Hd Hi password.
  unfold full_dispatch, api_login, try_except.
  rewrite (api_login_try_object d s i) by done. fold password.
  unfold mbind, M_bind, bind, call. simpl. unfold Ref.auth_login_user.
  destruct s as [w out]; simpl.
  destruct (String.eqb (Py.strip i) "" || negb (truthy password)); [done|].
  destruct (Ref.db_find_user_by_email (Py.strip i) w) as [u|]; [|done].
  by destruct (Ref.password_verifies P password u).
Qed.


(** *** How one call changes the store *)

Lemma check_email_keeps_store req s :
  store (full_dispatch (api_check_email (B := Ref.backend P) req) s).2 = store s.
Proof.
  unfold full_dispatch, api_check_email, try_except,
    mbind, mret, M_bind, M_ret, bind, ret, raise, pure_call, call, print.
  destruct req as [[data|ex]]; simpl; [|done].
  destruct (truthy data); simpl; [|done].
  destruct (py_get data "email" (JStr "")) as [v|ex]; simpl; [|done].
  by destruct (py_strip v) as [email|ex].
Qed.

Lemma get_profile_keeps_store id s :
  store (full_dispatch (api_get_profile (B := Ref.backend P) id) s).2 = store s.
Proof.
  unfold full_dispatch, api_get_profile, try_except,
    mbind, mret, M_bind, M_ret, bind, ret, raise, pure_call, call, print.
  simpl. destruct (Ref.db_find_user_by_id id (store s)) as [u|]; simpl; [|done].
  by destruct (negb (bool_decide (Ref.user_dict u = ∅))).
Qed.

(** A call leaves the store as it was, or appends one user who has not
    logged in yet (a registration answered 201), or stamps last-logins with
    the current time (a login). *)
Lemma serve_store c s :
  let s' := (Ref.serve P c s).2 in
  store s' = store s
  ∨ (∃ req u, c = Ref.PostRegister req
       ∧ status (Ref.serve P c s).1 = 201
       ∧ Ref.user_last_login u = None
       ∧ store s' = Ref.World (Ref.users (store s) ++ [u]) (Ref.clock (store s) + 1))
  ∨ (∃ req id, c = Ref.PostLogin req
       ∧ store s' =
           Ref.World (map (λ u, if Z.eqb (Ref.user_id u) id
                                then Ref.set_last_login (Ref.clock (store s)) u
                                else u) (Ref.users (store s)))
                     (Ref.clock (store s))).
Proof.
  destruct c as [req|req|req|id]; unfold Ref.serve; cbv zeta.
  - destruct (api_register_reaches_backend (B := Ref.backend P) req s)
      as [(d & e & r & -> & Hd & He & Hr)|[Hs _]]; [|by left].
    rewrite (ref_register_outcome d s e r) by done.
    destruct (Ref.validate_registration P _ _ _ _) as [[pw pr]|ex]; [|by left].
    destruct (Ref.db_find_user_by_email (Py.strip e) (store s)); [by left|].
    right; left. eexists _, _. by repeat split.
  - destruct (api_login_reaches_backend (B := Ref.backend P) req s)
      as [(d & i & -> & Hd & Hi)|Hs]; [|by left].
    rewrite (ref_login_outcome d s i) by done.
    destruct (_ || _); [by left|].
    destruct (Ref.db_find_user_by_email (Py.strip i) (store s)) as [u|]; [|by left].
    destruct (Ref.password_verifies P _ u); [|by left].
    right; right. by eexists _, _.
  - left. apply check_email_keeps_store.
  - left. apply get_profile_keeps_store.
Qed.

Lemma stamp_keeps_email id t u :
  Ref.user_email (if Z.eqb (Ref.user_id u) id then Ref.set_last_login t u else u)
  = Ref.user_email u.
Proof. by destruct (Z.eqb (Ref.user_id u) id). Qed.

(** A registered address stays registered: no call removes a user or
    changes an email. *)
Lemma serve_keeps_registered e c s :
  Ref.registered e (store s) → Ref.registered e (store (Ref.serve P c s).2).
Proof.
  intros (u & Hin & Heq).
  destruct (serve_store c s) as [->|[(req & u' & _ & _ & _ & ->)|(req & id & _ & ->)]].
  - by exists u.
  - exists u. split; [|done]. simpl. apply elem_of_app. by left.
  - eexists. split.
    + simpl. apply list_elem_of_In, in_map, list_elem_of_In, Hin.
    + by rewrite stamp_keeps_email.
Qed.

Lemma serve_all_keeps_registered e cs s :
  Ref.registered e (store s) → Ref.registered e (store (Ref.serve_all P cs s)).
Proof.
  revert s. induction cs as [|c cs IH]; intros s Hreg; [done|].
  simpl. by apply IH, serve_keeps_registered.
Qed.

(** Only a registration answered 201 makes an address registered. *)
Lemma serve_registers_only_by_201 e c s :
  ¬ Ref.registered e (store s) →
  Ref.registered e (store (Ref.serve P c s).2) →
  ∃ req, c = Ref.PostRegister req ∧ status (Ref.serve P c s).1 = 201.
Proof.
  intros Hnot Hreg.
  destruct (serve_store c s) as [Hs|[(req & u' & -> & H201 & _)|(req & id & _ & Hs)]].
  - by rewrite Hs in Hreg.
  - by exists req.
  - rewrite Hs in Hreg. destruct Hnot. destruct Hreg as (u & Hin & Heq).
    simpl in Hin. apply list_elem_of_In, in_map_iff in Hin as (u0 & <- & Hin0).
    rewrite stamp_keeps_email in Heq. exists u0. split; [|done].
    by apply list_elem_of_In.
Qed.

(** A registration answered 201 registers the address it was sent for. *)
Lemma register_201_registers d e s :
  d !! "email" = Some (JStr e) →
  status (Ref.serve P (Ref.PostRegister (Request (Ok (JDict d)))) s).1 = 201 →
  Ref.registered e
    (store (Ref.serve P (Ref.PostRegister (Request (Ok (JDict d)))) s).2).
Proof.
  intros He. unfold Ref.serve.
  destruct (api_register_reaches_backend (B := Ref.backend P)
              (Request (Ok (JDict d))) s)
    as [(d' & e' & r & [= <-] & Hd & He' & Hr)|[_ Hne]]; [|by intros ?].
  rewrite He in He'. simpl in He'. injection He' as <-.
  rewrite (ref_register_outcome d s e r); [|done|by rewrite He|done].
  destruct (Ref.validate_registration P _ _ _ _) as [[pw pr]|ex]; [|done].
  destruct (Ref.db_find_user_by_email (Py.strip e) (store s)); [done|].
  intros _. eexists. split.
  - simpl. apply elem_of_app. right. apply list_elem_of_singleton. done.
  - simpl. apply lower_idem.
Qed.



Lemma ref_check_email_outcome d s e :
  d !! "email" = Some (JStr e) →
  Ref.serve P (Ref.PostCheckEmail (Request (Ok (JDict d)))) s =
    (Response (JDict {[ "success" := JBool true;
                        "available" :=
                          JBool (bool_decide
                                   (Ref.db_find_user_by_email (Py.strip e) (store s)
                                    = None)) ]}) 200, s).
Proof.
  intros He. assert (d ≠ ∅) as Hd by (by intros ->).
  unfold Ref.serve, full_dispatch, api_check_email, try_except,
    mbind, mret, M_bind, M_ret, bind, ret, raise, pure_call, call, print.
  simpl. rewrite bool_decide_eq_false_2 by done. rewrite He. simpl.
  destruct s as [w out]; simpl.
  by destruct (Ref.db_find_user_by_email (Py.strip e) w).
Qed.

(** C8: for an address [e] and a check-email request for it: while [e] is
    not registered the answer is [available: true] and the server is left as
    it was, so a repeated check answers the same; only a registration
    answered 201 can make [e] registered; and once a registration for [e]
    has been answered 201, the check answers [available: false] after any
    further calls. *)
Theorem check_email_flips_once d e :
  d !! "email" = Some (JStr e) →
  let check := Ref.PostCheckEmail (Request (Ok (JDict d))) in
  let available (b : bool) :=
    Response (JDict {[ "success" := JBool true; "available" := JBool b ]}) 200 in
  (∀ s, ¬ Ref.registered e (store s) →
        Ref.serve P check s = (available true, s))
  ∧ (∀ s c, ¬ Ref.registered e (store s) →
            Ref.registered e (store (Ref.serve P c s).2) →
            ∃ req, c = Ref.PostRegister req ∧ status (Ref.serve P c s).1 = 201)
  ∧ (∀ s dreg cs,
       dreg !! "email" = Some (JStr e) →
       let registration := Ref.PostRegister (Request (Ok (JDict dreg))) in
       status (Ref.serve P registration s).1 = 201 →
       let s' := Ref.serve_all P cs (Ref.serve P registration s).2 in
       Ref.serve P check s' = (available false, s')).
Proof.
  intros He check available. split; [|split].
  - intros s Hnot. unfold check. rewrite (ref_check_email_outcome d s e) by done.
    apply unregistered_find in Hnot as ->. done.
  - intros s c. apply serve_registers_only_by_201.
  - intros s dreg cs Hreg registration H201 s'. unfold check.
    rewrite (ref_check_email_outcome d s' e) by done.
    assert (Ref.registered e (store s')) as [u Hu]%registered_find.
    { by apply serve_all_keeps_registered, register_201_registers. }
    by rewrite Hu.
Qed.

End RefFacts.

(** C6, amended: for a registration whose body is a non-empty object with
    a string email and role, what [api_register] does before anything is
    validated or stored is this: it strips the email, leaving its case as it
    was sent, strips and lowercases the role, and calls [register_user] with
    these, the password and the profile as they came. *)
Theorem register_trims_email_and_lowers_role {W : Type} {B : Backend W}
    (d : gmap string json) (s : server W) (e r : string) :
  d ≠ ∅ →
  default (JStr "") (d !! "email") = JStr e →
  default (JStr "") (d !! "role") = JStr r →
  api_register_try (Request (Ok (JDict d))) s =
    (user ← call (register_user (Py.strip e)
                    (default (JStr "") (d !! "password"))
                    (Py.lower (Py.strip r))
                    (default (JDict ∅) (d !! "profile")));
     mret (Response (JDict {[ "success" := JBool true;
                              "message" := JStr "Registration successful";
                              "user" := user ]}) 201)) s.
Proof.
  intros Hd He Hr. unfold api_register_try, pure_call.
  unfold mbind at 1, M_bind at 1, bind at 1. cbn [get_json truthy].
  rewrite bool_decide_eq_false_2 by done. cbn [negb py_get].
  rewrite He, Hr. reflexivity.
Qed.


(* ===================================================================== *)
(** ** The theorems at concrete requests *)

Lemma register_login_error_mapping_witness :
  full_dispatch (api_register (B := Ref.backend Ref.sample_policy)
                   (Request (Ok (JDict Ref.sample_registration))))
                Ref.server_with_a
  = (Response (error_body "auth_error" "Email already registered") 401,
     Ref.server_with_a)
  ∧ full_dispatch (api_login (B := unreachable_backend)
                     (Request (Ok (JDict Ref.sample_login)))) (Server tt [])
    = (Response (error_body "database_error"
                   "An error occurred while processing your request") 500,
       Server tt [LogLine "Login error: " (DatabaseError "database is locked")]).
Proof.
  split.
  - apply (proj1 (register_login_error_mapping (B := Ref.backend Ref.sample_policy)
                    (Request (Ok (JDict Ref.sample_registration)))
                    Ref.server_with_a)
                 (AuthError "Email already registered") Ref.server_with_a).
    vm_compute. reflexivity.
  - apply (proj2 (register_login_error_mapping (B := unreachable_backend)
                    (Request (Ok (JDict Ref.sample_login))) (Server tt []))
                 (DatabaseError "database is locked") (Server tt [])).
    vm_compute. reflexivity.
Defined.

Lemma get_profile_responses_witness :
  (full_dispatch (api_get_profile (B := Ref.backend Ref.sample_policy) 999999)
                 Ref.server_with_a).1
  = Response (error_body "not_found" "User not found") 404
  ∧ status (full_dispatch (api_get_profile (B := Ref.backend Ref.sample_policy) 1)
                          Ref.server_with_a).1 = 200
  ∧ (full_dispatch (api_get_profile (B := unreachable_backend) 1) (Server tt [])).1
    = Response (error_body "fetch_failed" "Could not retrieve profile") 500.
Proof.
  split; [|split].
  - rewrite (proj1 (get_profile_responses (B := Ref.backend Ref.sample_policy)
                      999999 Ref.server_with_a) (store Ref.server_with_a));
      reflexivity.
  - rewrite (proj1 (proj2 (get_profile_responses
                             (B := Ref.backend Ref.sample_policy)
                             1 Ref.server_with_a))
                   (Ref.user_dict
                      (Ref.User 1 "a@x.com" "pbkdf2$Secret123" "patient"
                                (JDict ∅) 0 None))
                   (store Ref.server_with_a));
      [reflexivity|apply insert_non_empty|reflexivity].
  - rewrite (proj2 (proj2 (get_profile_responses (B := unreachable_backend)
                             1 (Server tt [])))
                   (DatabaseError "database is locked") tt);
      reflexivity.
Defined.

Lemma login_falls_back_to_email_witness :
  api_login_try (B := Ref.backend Ref.sample_policy)
    (Request (Ok (JDict {[ "identifier" := JStr "";
                           "email" := JStr "  a@x.com ";
                           "password" := JStr "Secret123" ]})))
    Ref.server_with_a
  = (user ← call (login_user (Backend := Ref.backend Ref.sample_policy)
                    "a@x.com" (JStr "Secret123"));
     mret (Response (JDict {[ "success" := JBool true;
                              "message" := JStr "Login successful";
                              "user" := user ]}) 200)) Ref.server_with_a.
Proof.
  rewrite (login_falls_back_to_email (B := Ref.backend Ref.sample_policy)
             {[ "identifier" := JStr ""; "email" := JStr "  a@x.com ";
                "password" := JStr "Secret123" ]} Ref.server_with_a).
  - reflexivity.
  - right. exists (JStr ""). split; reflexivity.
Defined.

Lemma check_email_on_object_witness :
  full_dispatch (api_check_email (B := Ref.backend Ref.sample_policy)
                   (Request (Ok (JDict {[ "email" := JStr " A@x.com" ]}))))
                Ref.server_with_a
  = (Response (JDict {[ "success" := JBool true;
                        "available" := JBool false ]}) 200,
     Ref.server_with_a).
Proof.
  rewrite (proj2 (check_email_on_object (B := Ref.backend Ref.sample_policy)
                    {[ "email" := JStr " A@x.com" ]} Ref.server_with_a
                    (map_non_empty_singleton _ _))).
  reflexivity.
Defined.

(** C10 as stated fails at a non-empty JSON object whose email is a
    number: the answer is 500, not 200. *)
Lemma check_email_number_is_500 :
  ({[ "email" := JInt 5 ]} : gmap string json) ≠ ∅
  ∧ (full_dispatch (api_check_email (B := Ref.backend Ref.sample_policy)
                      (Request (Ok (JDict {[ "email" := JInt 5 ]}))))
                   Ref.fresh_server).1
    = Response (error_body "check_failed" "Could not check email availability") 500.
Proof. split; [apply map_non_empty_singleton|reflexivity]. Qed.

Lemma register_fresh_email_succeeds_witness :
  (Ref.serve Ref.sample_policy
     (Ref.PostRegister (Request (Ok (JDict Ref.sample_registration))))
     Ref.fresh_server).1
  = Response (JDict {[ "success" := JBool true;
                       "message" := JStr "Registration successful";
                       "user" := JDict {[ "id" := JInt 1;
                                          "email" := JStr "a@x.com";
                                          "role" := JStr "patient";
                                          "profile" := JDict ∅;
                                          "created_at" := JInt 0;
                                          "last_login" := JNull ]} ]}) 201.
Proof.
  unfold Ref.serve.
  rewrite (proj1 (register_fresh_email_succeeds Ref.sample_policy
                    Ref.sample_registration Ref.fresh_server
                    "a@x.com" "patient" "Secret123" ∅
                    eq_refl eq_refl eq_refl
                    (proj2 (unregistered_find "a@x.com" Ref.init_world) eq_refl))).
  reflexivity.
Defined.

Lemma check_email_flips_once_witness :
  let check :=
    Ref.PostCheckEmail (Request (Ok (JDict {[ "email" := JStr "A@x.com " ]}))) in
  let registration :=
    Ref.PostRegister
      (Request (Ok (JDict (<["email" := JStr "A@x.com "]> Ref.sample_registration)))) in
  let later :=
    Ref.serve_all Ref.sample_policy
      [Ref.PostLogin (Request (Ok (JDict Ref.sample_login)))]
      (Ref.serve Ref.sample_policy registration Ref.fresh_server).2 in
  Ref.serve Ref.sample_policy check Ref.fresh_server
  = (Response (JDict {[ "success" := JBool true;
                        "available" := JBool true ]}) 200, Ref.fresh_server)
  ∧ Ref.serve Ref.sample_policy check later
    = (Response (JDict {[ "success" := JBool true;
                          "available" := JBool false ]}) 200, later).
Proof.
  intros check registration later.
  pose proof (check_email_flips_once Ref.sample_policy
                {[ "email" := JStr "A@x.com " ]} "A@x.com " eq_refl)
    as (Hfree & _ & Htaken).
  split.
  - apply (Hfree Ref.fresh_server).
    apply unregistered_find. vm_compute. reflexivity.
  - apply (Htaken Ref.fresh_server
             (<["email" := JStr "A@x.com "]> Ref.sample_registration)
             [Ref.PostLogin (Request (Ok (JDict Ref.sample_login)))]);
      vm_compute; reflexivity.
Defined.

(* ===================================================================== *)
(** ** More on the handlers, over any backend *)

Section HandlerEdges.
Context {W : Type} {B : Backend W}.
Implicit Types (s : server W) (d : gmap string json) (req : request)
  (data v : json).

Ltac run_view :=
  unfold full_dispatch, api_register, api_register_try, api_login,
    api_login_try, api_check_email, api_get_profile, try_except,
    mbind, mret, M_bind, M_ret, result_bind, result_ret,
    bind, ret, raise, pure_call, call, print; simpl.

(** X1: a body with a falsy value ([None], [false], [0], [0.0], [""], [[]],
    [{}]) is refused by [api_register] and [api_login] with 400, slug
    [validation_error] and "Request body is required"; the backend is not
    called and nothing is printed. *)
Theorem register_login_refuse_falsy_body data s :
  truthy data = false →
  full_dispatch (api_register (Request (Ok data))) s =
    (Response (error_body "validation_error" "Request body is required") 400, s)
  ∧ full_dispatch (api_login (Request (Ok data))) s =
    (Response (error_body "validation_error" "Request body is required") 400, s).
Proof. intros Hfalsy. run_view. by rewrite Hfalsy. Qed.

(** X2: a body that is truthy but not a JSON object (a non-empty array or
    string, a non-zero number, [true]) has no [get]: [api_register] and
    [api_login] answer 500 with slug [database_error], print the
    [AttributeError], and leave the store alone. *)
Theorem register_login_non_object_body data s :
  truthy data = true →
  is_dict data = false →
  full_dispatch (api_register (Request (Ok data))) s =
    (Response (error_body "database_error"
                 "An error occurred while processing your request") 500,
     Server (store s)
       (stdout s ++ [LogLine "Registration error: " (AttributeError data "get")]))
  ∧ full_dispatch (api_login (Request (Ok data))) s =
    (Response (error_body "database_error"
                 "An error occurred while processing your request") 500,
     Server (store s)
       (stdout s ++ [LogLine "Login error: " (AttributeError data "get")])).
Proof.
  intros Htruthy Hnd. run_view. rewrite Htruthy. simpl.
  by destruct data.
Qed.

(** X3: when [get_json()] raises an exception that is neither a
    [ValidationError] nor an [AuthError] (werkzeug's [BadRequest] for a body
    that does not parse, say), [api_register] and [api_login] answer 500
    with slug [database_error], not 400, and print the exception. *)
Theorem register_login_unparsable_body (cls msg : string) s :
  full_dispatch (api_register (Request (Raise (OtherException cls msg)))) s =
    (Response (error_body "database_error"
                 "An error occurred while processing your request") 500,
     Server (store s)
       (stdout s ++ [LogLine "Registration error: " (OtherException cls msg)]))
  ∧ full_dispatch (api_login (Request (Raise (OtherException cls msg)))) s =
    (Response (error_body "database_error"
                 "An error occurred while processing your request") 500,
     Server (store s)
       (stdout s ++ [LogLine "Login error: " (OtherException cls msg)])).
Proof. done. Qed.

(** X4: in a non-empty object, an email that is not a string, or with a
    string email a role that is not a string, has no [strip]:
    [api_register] answers 500 with slug [database_error] without calling
    [register_user], and prints the [AttributeError] of the first of the two
    that fails. *)
Theorem register_non_string_email_or_role d s :
  d ≠ ∅ →
  let email := default (JStr "") (d !! "email") in
  let role := default (JStr "") (d !! "role") in
  is_str email && is_str role = false →
  full_dispatch (api_register (Request (Ok (JDict d)))) s =
    (Response (error_body "database_error"
                 "An error occurred while processing your request") 500,
     Server (store s)
       (stdout s ++ [LogLine "Registration error: "
                       (AttributeError (if is_str email then role else email)
                                       "strip")])).
Proof.
  intros Hd email role Hbad. run_view.
  rewrite bool_decide_eq_false_2 by done. simpl.
  fold email role.
  destruct email; simpl in *; try done; destruct role; simpl in *; done.
Qed.

(** X5: for a non-empty object whose email and role are strings (absent
    keys count as [""], an absent profile as [{}]), [api_register] calls
    [register_user] once, with the email stripped, the password and the
    profile as they came, and the role stripped and lowercased.  What
    [register_user] returns goes into the 201 answer as it is; a
    [ValidationError] or [AuthError] it raises is answered 400 or 401 with
    its message; anything else it raises is printed and answered 500. *)
Theorem register_call_and_answer d s e r :
  d ≠ ∅ →
  default (JStr "") (d !! "email") = JStr e →
  default (JStr "") (d !! "role") = JStr r →
  full_dispatch (api_register (Request (Ok (JDict d)))) s =
    match register_user (Py.strip e) (default (JStr "") (d !! "password"))
            (Py.lower (Py.strip r)) (default (JDict ∅) (d !! "profile"))
            (store s) with
    | (Ok user, w) =>
        (Response (JDict {[ "success" := JBool true;
                            "message" := JStr "Registration successful";
                            "user" := user ]}) 201,
         Server w (stdout s))
    | (Raise (ValidationError m), w) =>
        (Response (error_body "validation_error" m) 400, Server w (stdout s))
    | (Raise (AuthError m), w) =>
        (Response (error_body "auth_error" m) 401, Server w (stdout s))
    | (Raise ex, w) =>
        (Response (error_body "database_error"
                     "An error occurred while processing your request") 500,
         Server w (stdout s ++ [LogLine "Registration error: " ex]))
    end.
Proof.
  intros Hd He Hr. run_view.
  rewrite bool_decide_eq_false_2 by done. simpl. rewrite He, Hr. simpl.
  destruct (register_user _ _ _ _ (store s)) as [[user|ex] w]; [done|].
  by destruct ex.
Qed.

(** X6: a non-empty string under ["identifier"] wins over ["email"]:
    [api_login] calls [login_user] once, with that string stripped and the
    password as it came, whatever the object holds under ["email"]; an
    identifier of whitespace only is passed on as the empty string.  The
    answer follows what [login_user] returns or raises, as for
    [api_register], with status 200 on success. *)
Theorem login_identifier_wins d s i :
  d !! "identifier" = Some (JStr i) →
  i ≠ "" →
  full_dispatch (api_login (Request (Ok (JDict d)))) s =
    match login_user (Py.strip i) (default (JStr "") (d !! "password"))
            (store s) with
    | (Ok user, w) =>
        (Response (JDict {[ "success" := JBool true;
                            "message" := JStr "Login successful";
                            "user" := user ]}) 200,
         Server w (stdout s))
    | (Raise (ValidationError m), w) =>
        (Response (error_body "validation_error" m) 400, Server w (stdout s))
    | (Raise (AuthError m), w) =>
        (Response (error_body "auth_error" m) 401, Server w (stdout s))
    | (Raise ex, w) =>
        (Response (error_body "database_error"
                     "An error occurred while processing your request") 500,
         Server w (stdout s ++ [LogLine "Login error: " ex]))
    end.
Proof.
  intros Hid Hi. assert (d ≠ ∅) as Hd by (by intros ->). run_view.
  rewrite bool_decide_eq_false_2 by done. simpl. rewrite Hid. simpl.
  destruct (String.eqb_spec i "") as [|_]; [done|]. simpl.
  destruct (login_user _ _ (store s)) as [[user|ex] w]; [done|].
  by destruct ex.
Qed.

(** X7: a truthy value under ["identifier"] that is not a string (a
    number, [true], a non-empty array or object) is chosen all the same and
    has no [strip]: [api_login] answers 500 with slug [database_error]
    without calling [login_user], even when ["email"] holds a string. *)
Theorem login_non_string_identifier d s v :
  d !! "identifier" = Some v →
  truthy v = true →
  is_str v = false →
  full_dispatch (api_login (Request (Ok (JDict d)))) s =
    (Response (error_body "database_error"
                 "An error occurred while processing your request") 500,
     Server (store s)
       (stdout s ++ [LogLine "Login error: " (AttributeError v "strip")])).
Proof.
  intros Hid Hv Hns. assert (d ≠ ∅) as Hd by (by intros ->). run_view.
  rewrite bool_decide_eq_false_2 by done. simpl. rewrite Hid. simpl.
  rewrite Hv. simpl. by destruct v.
Qed.

(** X8: a body that is not a non-empty JSON object never gets
    [api_check_email] as far as the lookup: a falsy body and a truthy body
    that is not an object are both answered 500 with slug [check_failed],
    the store untouched, the exception printed. *)
Theorem check_email_not_a_nonempty_object data s :
  truthy data && is_dict data = false →
  full_dispatch (api_check_email (Request (Ok data))) s =
    (Response (error_body "check_failed" "Could not check email availability") 500,
     Server (store s)
       (stdout s ++ [LogLine "Email check error: "
                       (if truthy data then AttributeError data "get"
                        else ValidationError "Request body is required")])).
Proof.
  intros Hbad. run_view.
  destruct (truthy data) eqn:Htruthy; simpl in *; [|done].
  by destruct data.
Qed.

(** X9: what [api_get_profile] does with a lookup that returns neither
    [None] nor a non-empty dict: any falsy value, the empty dict among them,
    is answered 404 with slug [not_found]; a truthy value that is not a dict
    has no [items] and is answered 500 with slug [fetch_failed]. *)
Theorem get_profile_odd_lookups (id : Z) s v w :
  find_user_by_id id (store s) = (Ok v, w) →
  (truthy v = false →
   full_dispatch (api_get_profile id) s =
     (Response (error_body "not_found" "User not found") 404,
      Server w (stdout s)))
  ∧ (truthy v = true → is_dict v = false →
     full_dispatch (api_get_profile id) s =
       (Response (error_body "fetch_failed" "Could not retrieve profile") 500,
        Server w (stdout s ++ [LogLine "Profile fetch error: "
                                 (AttributeError v "items")]))).
Proof.
  intros Hfind. split.
  - intros Hv. run_view. rewrite Hfind. simpl. by rewrite Hv.
  - intros Hv Hnd. run_view. rewrite Hfind. simpl. rewrite Hv. simpl.
    by destruct v.
Qed.

(** The [try] blocks print nothing, and return only their own envelope. *)
Lemma api_register_try_shape req s :
  stdout (api_register_try req s).2 = stdout s
  ∧ match (api_register_try req s).1 with
    | Ok r => ∃ user, r = Response (JDict {[ "success" := JBool true;
                                             "message" := JStr "Registration successful";
                                             "user" := user ]}) 201
    | Raise _ => True
    end.
Proof.
  run_view. destruct (get_json req) as [data|ex]; simpl; [|done].
  destruct (truthy data); simpl; [|done].
  destruct (py_get data "email" (JStr "")) as [v|ex]; simpl; [|done].
  destruct (py_strip v) as [email|ex]; simpl; [|done].
  destruct (py_get data "password" (JStr "")) as [password|ex]; simpl; [|done].
  destruct (py_get data "role" (JStr "")) as [v'|ex]; simpl; [|done].
  destruct (py_strip v') as [role|ex]; simpl; [|done].
  destruct (py_get data "profile" (JDict ∅)) as [profile|ex]; simpl; [|done].
  destruct (register_user _ _ _ _ (store s)) as [[user|ex] w]; simpl; by eauto.
Qed.

Lemma api_login_try_shape req s :
  stdout (api_login_try req s).2 = stdout s
  ∧ match (api_login_try req s).1 with
    | Ok r => ∃ user, r = Response (JDict {[ "success" := JBool true;
                                             "message" := JStr "Login successful";
                                             "user" := user ]}) 200
    | Raise _ => True
    end.
Proof.
  run_view. destruct (get_json req) as [data|ex]; simpl; [|done].
  destruct (truthy data); simpl; [|done].
  destruct (py_get data "identifier" JNull) as [first|ex]; simpl; [|done].
  destruct (truthy first); simpl;
    [|destruct (py_get data "email" (JStr "")) as [fallback|ex]; simpl; [|done]];
    (destruct (py_strip _) as [identifier|ex]; simpl; [|done]);
    (destruct (py_get data "password" (JStr "")) as [password|ex]; simpl; [|done]);
    (destruct (login_user _ _ (store s)) as [[user|ex] w]; simpl; by eauto).
Qed.

(** X10: every 500 is printed and nothing else is: whatever the backend
    does, each of the four handlers adds exactly one line to the server's
    output when it answers 500 and none when it answers anything else. *)
Theorem handlers_print_exactly_on_500 req (id : Z) s :
  logged_iff_500 s (full_dispatch (api_register req) s)
  ∧ logged_iff_500 s (full_dispatch (api_login req) s)
  ∧ logged_iff_500 s (full_dispatch (api_check_email req) s)
  ∧ logged_iff_500 s (full_dispatch (api_get_profile id) s).
Proof.
  unfold logged_iff_500. repeat split.
  - destruct (api_register_try_shape req s) as [Hout Hst].
    unfold full_dispatch, api_register, try_except.
    destruct (api_register_try req s) as [[r|e] s1]; simpl in *.
    + right. by destruct Hst as [user ->].
    + destruct e; simpl; [by right|by right|left..]; (split; [done|]);
        rewrite Hout; by eexists.
  - destruct (api_login_try_shape req s) as [Hout Hst].
    unfold full_dispatch, api_login, try_except.
    destruct (api_login_try req s) as [[r|e] s1]; simpl in *.
    + right. by destruct Hst as [user ->].
    + destruct e; simpl; [by right|by right|left..]; (split; [done|]);
        rewrite Hout; by eexists.
  - run_view. destruct (get_json req) as [data|ex]; simpl; [|left; by eauto].
    destruct (truthy data); simpl; [|left; by eauto].
    destruct (py_get data "email" (JStr "")) as [v|ex]; simpl; [|left; by eauto].
    destruct (py_strip v) as [email|ex]; simpl; [|left; by eauto].
    destruct (find_user_by_email email (store s)) as [[user|ex] w]; simpl;
      [by right|left; by eauto].
  - run_view. destruct (find_user_by_id id (store s)) as [[user|ex] w]; simpl;
      [|left; by eauto].
    destruct (truthy user); simpl; [|by right].
    destruct (py_items user) as [items|ex]; simpl; [by right|left; by eauto].
Qed.

(** X11: the status codes each handler can answer with, whatever the
    request and the backend: 201, 400, 401 or 500 for [api_register]; 200,
    400, 401 or 500 for [api_login]; 200 or 500 for [api_check_email], which
    therefore never answers 400 or 401 even when the lookup raises a
    [ValidationError] or an [AuthError]; 200, 404 or 500 for
    [api_get_profile]. *)
Theorem handlers_status_codes req (id : Z) s :
  In (status (full_dispatch (api_register req) s).1) [201; 400; 401; 500]
  ∧ In (status (full_dispatch (api_login req) s).1) [200; 400; 401; 500]
  ∧ In (status (full_dispatch (api_check_email req) s).1) [200; 500]
  ∧ In (status (full_dispatch (api_get_profile id) s).1) [200; 404; 500].
Proof.
  repeat split.
  - destruct (api_register_try_shape req s) as [_ Hst].
    unfold full_dispatch, api_register, try_except.
    destruct (api_register_try req s) as [[r|e] s1]; simpl in *.
    + destruct Hst as [user ->]. simpl. auto.
    + destruct e; simpl; auto.
  - destruct (api_login_try_shape req s) as [_ Hst].
    unfold full_dispatch, api_login, try_except.
    destruct (api_login_try req s) as [[r|e] s1]; simpl in *.
    + destruct Hst as [user ->]. simpl. auto.
    + destruct e; simpl; auto.
  - run_view. destruct (get_json req) as [data|ex]; simpl; [|auto].
    destruct (truthy data); simpl; [|auto].
    destruct (py_get data "email" (JStr "")) as [v|ex]; simpl; [|auto].
    destruct (py_strip v) as [email|ex]; simpl; [|auto].
    destruct (find_user_by_email email (store s)) as [[user|ex] w]; simpl; auto.
  - run_view. destruct (find_user_by_id id (store s)) as [[user|ex] w]; simpl;
      [|auto].
    destruct (truthy user); simpl; [|auto].
    destruct (py_items user) as [items|ex]; simpl; auto.
Qed.

(** X12: no exception of another class leaves a view: [api_register] and
    [api_login] raise only a [ValidationError], an [AuthError], or their own
    [DatabaseError]; [api_check_email] and [api_get_profile] always return.
    So the handler registered for 500, with slug [internal_error], is never
    the one that answers for these four routes. *)
Theorem handlers_raise_only_their_own req (id : Z) s :
  match (api_register req s).1 with
  | Raise e => leaves_view "Registration failed" e
  | Ok _ => True
  end
  ∧ match (api_login req s).1 with
    | Raise e => leaves_view "Login failed" e
    | Ok _ => True
    end
  ∧ (∃ r, (api_check_email req s).1 = Ok r)
  ∧ (∃ r, (api_get_profile id s).1 = Ok r).
Proof.
  repeat split.
  - unfold api_register, try_except.
    destruct (api_register_try req s) as [[r|e] s1]; simpl; [done|].
    by destruct e.
  - unfold api_login, try_except.
    destruct (api_login_try req s) as [[r|e] s1]; simpl; [done|].
    by destruct e.
  - destruct (api_check_email_never_raises req s) as (r & s' & ->). by exists r.
  - run_view. destruct (find_user_by_id id (store s)) as [[user|ex] w]; simpl;
      [|by eauto].
    destruct (truthy user); simpl; [|by eauto].
    destruct (py_items user) as [items|ex]; simpl; by eauto.
Qed.

(** X13: [api_register] sees an email only up to surrounding whitespace
    and a role only up to surrounding whitespace and case: the request with
    the email stripped and the role stripped and lowercased in place has the
    same outcome.  [api_login] sees an identifier up to surrounding
    whitespace, provided something is left of it once stripped. *)
Theorem register_login_ignore_spacing d s :
  (∀ e r,
     d ≠ ∅ →
     default (JStr "") (d !! "email") = JStr e →
     default (JStr "") (d !! "role") = JStr r →
     api_register
       (Request (Ok (JDict (<["email" := JStr (Py.strip e)]>
                              (<["role" := JStr (Py.lower (Py.strip r))]> d))))) s
     = api_register (Request (Ok (JDict d))) s)
  ∧ (∀ i,
     d !! "identifier" = Some (JStr i) →
     Py.strip i ≠ "" →
     api_login (Request (Ok (JDict (<["identifier" := JStr (Py.strip i)]> d)))) s
     = api_login (Request (Ok (JDict d))) s).
Proof.
  split.
  - intros e r Hd He Hr. unfold api_register, try_except.
    rewrite (api_register_try_object d s e r) by done.
    rewrite (api_register_try_object _ s (Py.strip e) (Py.lower (Py.strip r))).
    + rewrite !lookup_insert_ne by done.
      by rewrite strip_idem, strip_lower, strip_idem, lower_idem.
    + apply insert_non_empty.
    + by rewrite lookup_insert_eq.
    + by rewrite lookup_insert_ne, lookup_insert_eq.
  - intros i Hid Hi. unfold api_login, try_except.
    assert (i ≠ "") as Hne by (by intros ->).
    rewrite (api_login_try_object d s i);
      [|by intros ->|unfold chosen_identifier; rewrite Hid; simpl;
                      by destruct (String.eqb_spec i "")].
    rewrite (api_login_try_object _ s (Py.strip i)).
    + rewrite lookup_insert_ne by done. by rewrite strip_idem.
    + apply insert_non_empty.
    + unfold chosen_identifier. rewrite lookup_insert_eq. simpl.
      by destruct (String.eqb_spec (Py.strip i) "").
Qed.

(** X14: a 500 never carries anything of the exception behind it: the body
    of a 500 from [api_register] or [api_login] is the [database_error]
    envelope with its fixed message, from [api_check_email] the
    [check_failed] one, from [api_get_profile] the [fetch_failed] one,
    whatever the request and whatever the backend raised. *)
Theorem handlers_500_bodies_are_fixed req (id : Z) s :
  (status (full_dispatch (api_register req) s).1 = 500 →
   body (full_dispatch (api_register req) s).1 =
     error_body "database_error" "An error occurred while processing your request")
  ∧ (status (full_dispatch (api_login req) s).1 = 500 →
     body (full_dispatch (api_login req) s).1 =
       error_body "database_error" "An error occurred while processing your request")
  ∧ (status (full_dispatch (api_check_email req) s).1 = 500 →
     body (full_dispatch (api_check_email req) s).1 =
       error_body "check_failed" "Could not check email availability")
  ∧ (status (full_dispatch (api_get_profile id) s).1 = 500 →
     body (full_dispatch (api_get_profile id) s).1 =
       error_body "fetch_failed" "Could not retrieve profile").
Proof.
  repeat split.
  - destruct (api_register_try_shape req s) as [_ Hst].
    unfold full_dispatch, api_register, try_except.
    destruct (api_register_try req s) as [[r|e] s1]; simpl in *.
    + by destruct Hst as [user ->].
    + by destruct e.
  - destruct (api_login_try_shape req s) as [_ Hst].
    unfold full_dispatch, api_login, try_except.
    destruct (api_login_try req s) as [[r|e] s1]; simpl in *.
    + by destruct Hst as [user ->].
    + by destruct e.
  - run_view. destruct (get_json req) as [data|ex]; simpl; [|done].
    destruct (truthy data); simpl; [|done].
    destruct (py_get data "email" (JStr "")) as [v|ex]; simpl; [|done].
    destruct (py_strip v) as [email|ex]; simpl; [|done].
    by destruct (find_user_by_email email (store s)) as [[user|ex] w].
  - run_view. destruct (find_user_by_id id (store s)) as [[user|ex] w]; simpl;
      [|done].
    destruct (truthy user); simpl; [|done].
    by destruct (py_items user) as [items|ex].
Qed.

(** The answer to a registration or a login, from what the [try] block
    did. *)
Lemma api_register_answer req s :
  full_dispatch (api_register req) s =
    match api_register_try req s with
    | (Ok r, s1) => (r, s1)
    | (Raise (ValidationError m), s1) =>
        (Response (error_body "validation_error" m) 400, s1)
    | (Raise (AuthError m), s1) => (Response (error_body "auth_error" m) 401, s1)
    | (Raise e, s1) =>
        (Response (error_body "database_error"
                     "An error occurred while processing your request") 500,
         Server (store s1) (stdout s1 ++ [LogLine "Registration error: " e]))
    end.
Proof.
  unfold full_dispatch, api_register, try_except.
  destruct (api_register_try req s) as [[r|e] s1]; [done|]. by destruct e.
Qed.

Lemma api_login_answer req s :
  full_dispatch (api_login req) s =
    match api_login_try req s with
    | (Ok r, s1) => (r, s1)
    | (Raise (ValidationError m), s1) =>
        (Response (error_body "validation_error" m) 400, s1)
    | (Raise (AuthError m), s1) => (Response (error_body "auth_error" m) 401, s1)
    | (Raise e, s1) =>
        (Response (error_body "database_error"
                     "An error occurred while processing your request") 500,
         Server (store s1) (stdout s1 ++ [LogLine "Login error: " e]))
    end.
Proof.
  unfold full_dispatch, api_login, try_except.
  destruct (api_login_try req s) as [[r|e] s1]; [done|]. by destruct e.
Qed.

(** X15: every answer of the four handlers is an envelope: an object with
    ["success"] set to [true] under 200 or 201, or the failure object with
    ["success"] set to [false], an ["error"] slug and a ["message"], where
    the slug goes with the status: [validation_error] with 400,
    [auth_error] with 401, [not_found] with 404, and [database_error],
    [check_failed] or [fetch_failed] with 500. *)
Theorem handlers_answer_envelopes req (id : Z) s :
  is_envelope (full_dispatch (api_register req) s).1
  ∧ is_envelope (full_dispatch (api_login req) s).1
  ∧ is_envelope (full_dispatch (api_check_email req) s).1
  ∧ is_envelope (full_dispatch (api_get_profile id) s).1.
Proof.
  assert (∀ slug message (st : Z),
            In (st, slug)
               [(400, "validation_error"); (401, "auth_error"); (404, "not_found");
                (500, "database_error"); (500, "check_failed"); (500, "fetch_failed")] →
            is_envelope (Response (error_body slug message) st)) as Hfail.
  { intros slug message st Hin. right. by exists slug, message. }
  assert (∀ (m : gmap string json) (st : Z),
            In st [200; 201] → m !! "success" = Some (JBool true) →
            is_envelope (Response (JDict m) st)) as Hok.
  { intros m st Hin Hm. left. split; [done|]. by exists m. }
  assert (∀ message, is_envelope (Response (error_body "validation_error" message) 400))
    as H400 by (intros; apply Hfail; cbn [In]; auto).
  assert (∀ message, is_envelope (Response (error_body "auth_error" message) 401))
    as H401 by (intros; apply Hfail; cbn [In]; auto).
  assert (∀ message, is_envelope (Response (error_body "not_found" message) 404))
    as H404 by (intros; apply Hfail; cbn [In]; auto).
  assert (∀ message, is_envelope (Response (error_body "database_error" message) 500))
    as Hdb by (intros; apply Hfail; cbn [In]; auto 10).
  assert (∀ message, is_envelope (Response (error_body "check_failed" message) 500))
    as Hcf by (intros; apply Hfail; cbn [In]; auto 10).
  assert (∀ message, is_envelope (Response (error_body "fetch_failed" message) 500))
    as Hff by (intros; apply Hfail; cbn [In]; auto 10).
  repeat split.
  - rewrite api_register_answer.
    destruct (api_register_try_shape req s) as [_ Hst].
    destruct (api_register_try req s) as [[r|e] s1]; cbn [fst snd] in *.
    + destruct Hst as [user ->]. apply Hok; [cbn [In]; auto|done].
    + destruct e; cbn [fst]; auto.
  - rewrite api_login_answer.
    destruct (api_login_try_shape req s) as [_ Hst].
    destruct (api_login_try req s) as [[r|e] s1]; cbn [fst snd] in *.
    + destruct Hst as [user ->]. apply Hok; [cbn [In]; auto|done].
    + destruct e; cbn [fst]; auto.
  - unfold full_dispatch, api_check_email, try_except,
      mbind, mret, M_bind, M_ret, bind, ret, raise, pure_call, call, print.
    destruct (get_json req) as [data|ex]; cbn [fst snd]; [|apply Hcf].
    destruct (truthy data); cbn [negb fst snd]; [|apply Hcf].
    destruct (result_bind _ _ _ _) as [email|ex]; cbn [fst snd]; [|apply Hcf].
    destruct (find_user_by_email email (store s)) as [[user|ex] w];
      cbn [fst snd]; [|apply Hcf].
    apply Hok; [cbn [In]; auto|done].
  - unfold full_dispatch, api_get_profile, try_except,
      mbind, mret, M_bind, M_ret, bind, ret, raise, pure_call, call, print.
    destruct (find_user_by_id id (store s)) as [[user|ex] w]; cbn [fst snd];
      [|apply Hff].
    destruct (truthy user); cbn [negb fst snd]; [|apply H404].
    destruct (py_items user) as [items|ex]; cbn [fst snd]; [|apply Hff].
    apply Hok; [cbn [In]; auto|done].
Qed.

End HandlerEdges.

(** *** The same at concrete requests *)

Lemma register_login_refuse_falsy_body_witness :
  full_dispatch (api_register (B := Ref.backend Ref.sample_policy)
                   (Request (Ok (JDict ∅)))) Ref.server_with_a
  = (Response (error_body "validation_error" "Request body is required") 400,
     Ref.server_with_a)
  ∧ full_dispatch (api_login (B := Ref.backend Ref.sample_policy)
                     (Request (Ok (JList [])))) Ref.server_with_a
    = (Response (error_body "validation_error" "Request body is required") 400,
       Ref.server_with_a).
Proof.
  split.
  - apply (register_login_refuse_falsy_body (B := Ref.backend Ref.sample_policy)
             (JDict ∅) Ref.server_with_a).
    vm_compute. reflexivity.
  - apply (register_login_refuse_falsy_body (B := Ref.backend Ref.sample_policy)
             (JList []) Ref.server_with_a).
    vm_compute. reflexivity.
Defined.

Lemma register_login_non_object_body_witness :
  full_dispatch (api_register (B := Ref.backend Ref.sample_policy)
                   (Request (Ok (JList [JInt 1])))) Ref.fresh_server
  = (Response (error_body "database_error"
                 "An error occurred while processing your request") 500,
     Server Ref.init_world
       [LogLine "Registration error: "
          (OtherException "AttributeError"
             "'list' object has no attribute 'get'")]).
Proof.
  apply (register_login_non_object_body (B := Ref.backend Ref.sample_policy)
           (JList [JInt 1]) Ref.fresh_server);
    vm_compute; reflexivity.
Defined.

Lemma register_non_string_email_or_role_witness :
  full_dispatch (api_register (B := Ref.backend Ref.sample_policy)
                   (Request (Ok (JDict {[ "email" := JNull;
                                          "role" := JStr "patient" ]}))))
                Ref.fresh_server
  = (Response (error_body "database_error"
                 "An error occurred while processing your request") 500,
     Server Ref.init_world
       [LogLine "Registration error: "
          (OtherException "AttributeError"
             "'NoneType' object has no attribute 'strip'")]).
Proof.
  refine (register_non_string_email_or_role (B := Ref.backend Ref.sample_policy)
            {[ "email" := JNull; "role" := JStr "patient" ]} Ref.fresh_server
            _ _).
  - apply insert_non_empty.
  - vm_compute. reflexivity.
Defined.

Lemma register_call_and_answer_witness :
  full_dispatch (api_register (B := careless_backend)
                   (Request (Ok (JDict {[ "email" := JStr " A@x.com";
                                          "password" := JStr " pw " ]}))))
                (Server tt [])
  = (Response (JDict {[ "success" := JBool true;
                        "message" := JStr "Registration successful";
                        "user" := JStr "created" ]}) 201, Server tt []).
Proof.
  rewrite (register_call_and_answer (B := careless_backend)
             {[ "email" := JStr " A@x.com"; "password" := JStr " pw " ]}
             (Server tt []) " A@x.com" "").
  - reflexivity.
  - apply insert_non_empty.
  - vm_compute. reflexivity.
  - vm_compute. reflexivity.
Defined.

Lemma login_identifier_wins_witness :
  full_dispatch (api_login (B := Ref.backend Ref.sample_policy)
                   (Request (Ok (JDict {[ "identifier" := JStr "   ";
                                          "email" := JStr "a@x.com";
                                          "password" := JStr "Secret123" ]}))))
                Ref.server_with_a
  = (Response (error_body "validation_error"
                 "Identifier and password are required") 400,
     Ref.server_with_a).
Proof.
  rewrite (login_identifier_wins (B := Ref.backend Ref.sample_policy)
             {[ "identifier" := JStr "   "; "email" := JStr "a@x.com";
                "password" := JStr "Secret123" ]} Ref.server_with_a "   ").
  - vm_compute. reflexivity.
  - vm_compute. reflexivity.
  - discriminate.
Defined.

Lemma login_non_string_identifier_witness :
  full_dispatch (api_login (B := Ref.backend Ref.sample_policy)
                   (Request (Ok (JDict {[ "identifier" := JInt 5;
                                          "email" := JStr "a@x.com";
                                          "password" := JStr "Secret123" ]}))))
                Ref.fresh_server
  = (Response (error_body "database_error"
                 "An error occurred while processing your request") 500,
     Server Ref.init_world
       [LogLine "Login error: "
          (OtherException "AttributeError"
             "'int' object has no attribute 'strip'")]).
Proof.
  apply (login_non_string_identifier (B := Ref.backend Ref.sample_policy)
           {[ "identifier" := JInt 5; "email" := JStr "a@x.com";
              "password" := JStr "Secret123" ]} Ref.fresh_server (JInt 5));
    vm_compute; reflexivity.
Defined.

Lemma check_email_not_a_nonempty_object_witness :
  full_dispatch (api_check_email (B := Ref.backend Ref.sample_policy)
                   (Request (Ok (JDict ∅)))) Ref.fresh_server
  = (Response (error_body "check_failed" "Could not check email availability") 500,
     Server Ref.init_world
       [LogLine "Email check error: "
          (ValidationError "Request body is required")]).
Proof.
  rewrite (check_email_not_a_nonempty_object (B := Ref.backend Ref.sample_policy)
             (JDict ∅) Ref.fresh_server).
  - vm_compute. reflexivity.
  - vm_compute. reflexivity.
Defined.

Lemma get_profile_odd_lookups_witness :
  full_dispatch (api_get_profile (B := careless_backend) 0) (Server tt [])
  = (Response (error_body "not_found" "User not found") 404, Server tt [])
  ∧ full_dispatch (api_get_profile (B := careless_backend) 7) (Server tt [])
    = (Response (error_body "fetch_failed" "Could not retrieve profile") 500,
       Server tt [LogLine "Profile fetch error: "
                    (OtherException "AttributeError"
                       "'list' object has no attribute 'items'")]).
Proof.
  split.
  - apply (proj1 (get_profile_odd_lookups (B := careless_backend)
                    0 (Server tt []) (JDict ∅) tt eq_refl)).
    vm_compute. reflexivity.
  - apply (proj2 (get_profile_odd_lookups (B := careless_backend)
                    7 (Server tt []) (JList [JInt 7]) tt eq_refl));
      vm_compute; reflexivity.
Defined.

Lemma register_login_ignore_spacing_witness :
  api_register (B := Ref.backend Ref.sample_policy)
    (Request (Ok (JDict (<["email" := JStr (Py.strip " A@x.com ")]>
                           (<["role" := JStr (Py.lower (Py.strip " Patient"))]>
                              (<["email" := JStr " A@x.com "]>
                                 (<["role" := JStr " Patient"]>
                                    Ref.sample_registration)))))))
    Ref.fresh_server
  = api_register (B := Ref.backend Ref.sample_policy)
      (Request (Ok (JDict (<["email" := JStr " A@x.com "]>
                             (<["role" := JStr " Patient"]>
                                Ref.sample_registration)))))
      Ref.fresh_server
  ∧ api_login (B := Ref.backend Ref.sample_policy)
      (Request (Ok (JDict (<["identifier" := JStr (Py.strip " a@x.com ")]>
                             (<["identifier" := JStr " a@x.com "]>
                                Ref.sample_login)))))
      Ref.server_with_a
    = api_login (B := Ref.backend Ref.sample_policy)
        (Request (Ok (JDict (<["identifier" := JStr " a@x.com "]>
                               Ref.sample_login))))
        Ref.server_with_a.
Proof.
  split.
  - refine (proj1 (register_login_ignore_spacing (B := Ref.backend Ref.sample_policy)
                     (<["email" := JStr " A@x.com "]>
                        (<["role" := JStr " Patient"]> Ref.sample_registration))
                     Ref.fresh_server)
                  " A@x.com " " Patient" _ _ _).
    + apply insert_non_empty.
    + vm_compute. reflexivity.
    + vm_compute. reflexivity.
  - refine (proj2 (register_login_ignore_spacing (B := Ref.backend Ref.sample_policy)
                     (<["identifier" := JStr " a@x.com "]> Ref.sample_login)
                     Ref.server_with_a)
                  " a@x.com " _ _).
    + vm_compute. reflexivity.
    + vm_compute. discriminate.
Defined.

Lemma handlers_500_bodies_are_fixed_witness :
  body (full_dispatch (api_register (B := unreachable_backend)
                         (Request (Ok (JDict Ref.sample_registration))))
                      (Server tt [])).1
  = error_body "database_error" "An error occurred while processing your request"
  ∧ body (full_dispatch (api_get_profile (B := unreachable_backend) 1)
                        (Server tt [])).1
    = error_body "fetch_failed" "Could not retrieve profile".
Proof.
  pose proof (handlers_500_bodies_are_fixed (B := unreachable_backend)
                (Request (Ok (JDict Ref.sample_registration))) 1 (Server tt []))
    as (Hreg & _ & _ & Hprof).
  split.
  - apply Hreg. vm_compute. reflexivity.
  - apply Hprof. vm_compute. reflexivity.
Defined.

(** *** The amended statements at concrete requests *)

Lemma register_trims_email_and_lowers_role_witness :
  api_register_try (B := recording_backend)
    (Request (Ok (JDict {[ "email" := JStr " A@X.com ";
                           "password" := JStr "Secret123";
                           "role" := JStr " Doctor " ]})))
    (Server [] [])
  = (user ← call (register_user (Backend := recording_backend)
                    (Py.strip " A@X.com ") (JStr "Secret123")
                    (Py.lower (Py.strip " Doctor ")) (JDict ∅));
     mret (Response (JDict {[ "success" := JBool true;
                              "message" := JStr "Registration successful";
                              "user" := user ]}) 201)) (Server [] []).
Proof.
  refine (register_trims_email_and_lowers_role (B := recording_backend)
            {[ "email" := JStr " A@X.com "; "password" := JStr "Secret123";
               "role" := JStr " Doctor " ]}
            (Server [] []) " A@X.com " " Doctor " _ _ _).
  - apply insert_non_empty.
  - vm_compute. reflexivity.
  - vm_compute. reflexivity.
Defined.

(** C6 as stated fails at an email with capitals: [register_user] is
    called with the email stripped but in the case it was sent, while the
    role arrives stripped and lowercased. *)
Lemma register_hands_over_email_case_as_sent :
  store (full_dispatch
           (api_register (B := recording_backend)
              (Request (Ok (JDict {[ "email" := JStr " A@X.com ";
                                     "password" := JStr "Secret123";
                                     "role" := JStr " Doctor " ]}))))
           (Server [] [])).2
  = [RegisterCall "A@X.com" (JStr "Secret123") "doctor" (JDict ∅)]
  ∧ "A@X.com" ≠ Py.lower (Py.strip " A@X.com ").
Proof. split; [by vm_compute|]. vm_compute. discriminate. Qed.




